(** * Xendit payment gateway: checkout and confirmation

    A shallow embedding of
    [payments/payment_gateways/doctype/xendit_settings/xendit_settings.py]
    and the properties of its checkout life cycle.

    Python values are modelled by small inductive types, keyword-argument
    bags and the Integration Request table by finite maps, Python floats by
    binary64 primitive floats, and the effects of the module (document
    store, provider calls, hook calls, error log, HTTP response) by a
    state-and-exception monad over a record [World]. *)

From Stdlib Require Import ZArith Floats String Ascii List Bool Lia.
From stdpp Require Import gmap strings.
Import ListNotations.

Local Open Scope Z_scope.

(** ** Python exceptions and results *)

(** The exceptions the module can meet.  All of them derive from Python's
    [Exception], so both [except:] and [except Exception:] catch them. *)
Inductive exn : Type :=
| ValidationError (msg : string)          (* raised by frappe.throw *)
| DoesNotExistError (doctype : string)    (* raised by frappe.get_doc *)
| KeyError (key : string)
| TypeError
| AttributeError (attr : string)
| UnicodeDecodeError
| UnboundLocalError (var : string)
| OverflowError
| ValueError
| ProviderFault                            (* raised inside the xendit SDK *)
| HookError.                               (* raised by a document hook *)

Inductive result (A : Type) : Type :=
| Ok (a : A)
| Raise (e : exn).
Arguments Ok {A} a.
Arguments Raise {A} e.

Definition is_ok {A} (r : result A) : bool :=
  match r with Ok _ => true | Raise _ => false end.

(** ** The gateway fee (lines 100-107)

    [2000 + int((((2.9 / 100) * grand_total) / 1000)) * 1000], where
    [grand_total] is a Python float: the arithmetic is IEEE 754 binary64. *)
Module Fee.

(** Python's [int(x)] on a float: truncation towards zero; it raises
    [OverflowError] on an infinity and [ValueError] on a NaN. *)
Definition int_of_float (x : float) : result Z :=
  match Prim2SF x with
  | S754_zero _ => Ok 0
  | S754_finite s m e =>
      let a := Z.shiftl (Z.pos m) e in
      Ok (if s then - a else a)
  | S754_infinity _ => Raise OverflowError
  | S754_nan => Raise ValueError
  end.

(** The literal [2.9] is read as the nearest binary64 number. *)
Definition lit_2_9 : float := Eval cbv in (29 / 10)%float.

(** The ["value"] entry of the fee dictionary. *)
Definition gateway_fee (grand_total : float) : result Z :=
  match int_of_float (((lit_2_9 / 100) * grand_total) / 1000)%float with
  | Ok k => Ok (2000 + k * 1000)
  | Raise e => Raise e
  end.

(** A Python float holding the integer [a] (exact below 2^53). *)
Definition float_of_Z (a : Z) : float := PrimFloat.of_uint63 (Uint63.of_Z a).

(** The fee as the specification words it, in exact arithmetic:
    a base of 2000 plus 2.9% of the amount truncated down to a multiple
    of 1000.  For an integer amount [a], 0.029 * a / 1000 is
    29 * a / 1000000. *)
Definition ComputeFee_exact (a : Z) : Z := 2000 + (29 * a / 1000000) * 1000.

(** The same words read as binary64 arithmetic on the literal [0.029]
    (the floor of a non-negative float is its truncation). *)
Definition lit_0_029 : float := Eval cbv in (29 / 1000)%float.

Definition ComputeFee_binary64 (a : float) : result Z :=
  match int_of_float ((lit_0_029 * a) / 1000)%float with
  | Ok k => Ok (2000 + k * 1000)
  | Raise e => Raise e
  end.

(** Agreement of the code with the exact formula at one whole amount, and
    on the [p] whole amounts from [lo] on (by halving [p]). *)
Definition agree_at (a : Z) : bool :=
  match gateway_fee (float_of_Z a) with
  | Ok v => v =? ComputeFee_exact a
  | Raise _ => false
  end.

Fixpoint agree_from (lo : Z) (p : positive) : bool :=
  match p with
  | xH => agree_at lo
  | xO q => agree_from lo q && agree_from (lo + Z.pos q) q
  | xI q => agree_at lo && agree_from (lo + 1) q && agree_from (lo + 1 + Z.pos q) q
  end.

End Fee.

(** ** Python values *)

(** The values that travel in the keyword-argument bag of
    [get_payment_url]. *)
Inductive pyval : Type :=
| PyNone
| PyStr (s : string)
| PyBytes (b : list Byte.byte)
| PyInt (n : Z)
| PyFloat (x : float).

(** [v.decode("ASCII")]: only [bytes] has the method here; a byte above 127
    is not ASCII. *)
Definition is_ascii_byte (b : Byte.byte) : bool := (Byte.to_N b <? 128)%N.

Definition decode_ascii (v : pyval) : result string :=
  match v with
  | PyBytes b =>
      if forallb is_ascii_byte b then Ok (string_of_list_byte b)
      else Raise UnicodeDecodeError
  | _ => Raise (AttributeError "decode")
  end.

(** [d[key]] on a keyword-argument bag. *)
Definition getitem (d : gmap string pyval) (key : string) : result pyval :=
  match d !! key with
  | Some v => Ok v
  | None => Raise (KeyError key)
  end.

(** [x or None] on an optional string: the empty string is falsy. *)
Definition or_None (x : option string) : option string :=
  match x with
  | Some "" => None
  | _ => x
  end.

(** [str.format] prints [None] as the word None. *)
Definition format_opt (x : option string) : string :=
  match x with
  | Some s => s
  | None => "None"
  end.

(** Parsed JSON documents (the result of [json.loads]). *)
#[local] Unset Elimination Schemes.
Inductive json : Type :=
| JNull
| JBool (b : bool)
| JNum (n : Z)
| JStr (s : string)
| JArr (l : list json)
| JObj (fields : list (string * json)).
#[local] Set Elimination Schemes.

Fixpoint assoc_get (key : string) (fields : list (string * json)) : option json :=
  match fields with
  | [] => None
  | (k, v) :: rest => if String.eqb k key then Some v else assoc_get key rest
  end.

(** [v[key]] with a string key: a dictionary looks the key up, every other
    JSON value rejects it. *)
Definition json_getitem (v : json) (key : string) : result json :=
  match v with
  | JObj fields =>
      match assoc_get key fields with
      | Some x => Ok x
      | None => Raise (KeyError key)
      end
  | _ => Raise TypeError
  end.

(** ** [urllib.parse.urlencode]

    [urlencode({k: v})] is [quote_plus(k) + "=" + quote_plus(v)]; strings
    are taken as their UTF-8 bytes. *)
Module Urllib.

Definition in_range (lo hi : N) (c : ascii) : bool :=
  ((lo <=? N_of_ascii c) && (N_of_ascii c <=? hi))%N.

(** Letters, digits and [_.-~] are never quoted. *)
Definition always_safe (c : ascii) : bool :=
  in_range 65 90 c || in_range 97 122 c || in_range 48 57 c
  || Ascii.eqb c "_" || Ascii.eqb c "." || Ascii.eqb c "-" || Ascii.eqb c "~".

Definition hex_digit (n : N) : ascii :=
  ascii_of_N (if (n <? 10)%N then 48 + n else 55 + n)%N.

Definition percent (c : ascii) : string :=
  String "%" (String (hex_digit (N_of_ascii c / 16))
                     (String (hex_digit (N_of_ascii c mod 16)) "")).

Fixpoint quote (safe : list ascii) (s : string) : string :=
  match s with
  | EmptyString => ""
  | String c rest =>
      (if always_safe c || existsb (Ascii.eqb c) safe
       then String c "" else percent c) +:+ quote safe rest
  end.

Fixpoint has_space (s : string) : bool :=
  match s with
  | EmptyString => false
  | String c rest => Ascii.eqb c " " || has_space rest
  end.

Fixpoint space_to_plus (s : string) : string :=
  match s with
  | EmptyString => ""
  | String c rest => String (if Ascii.eqb c " " then "+"%char else c) (space_to_plus rest)
  end.

Definition quote_plus (s : string) : string :=
  if has_space s then space_to_plus (quote [" "%char] s) else quote [] s.

Definition urlencode (key value : string) : string :=
  quote_plus key +:+ "=" +:+ quote_plus value.

(** The characters a quoted string can hold. *)
Definition url_char (c : ascii) : bool :=
  always_safe c || Ascii.eqb c "%" || Ascii.eqb c "+".

Fixpoint all_chars (p : ascii -> bool) (s : string) : bool :=
  match s with
  | EmptyString => true
  | String c rest => p c && all_chars p rest
  end.

(** [s.endswith(suffix)]. *)
Definition ends_with (suffix s : string) : bool :=
  let n := String.length s in
  let k := String.length suffix in
  (k <=? n)%nat && String.eqb (substring (n - k) k s) suffix.

End Urllib.

(** ** Documents *)

(** Status of an Integration Request.  [Pending] is the status a freshly
    inserted request has; the module itself only ever writes
    ["Completed"]. *)
Inductive Status : Type := Pending | Completed | Failed.

(** What the xendit SDK hands back for an invoice; [str(invoice)] is the
    JSON text of its attributes, which the module parses again. *)
Record Invoice : Type := {
  inv_id : string;
  inv_external_id : string;
  inv_status : string;
  inv_invoice_url : string;
}.

Definition invoice_json (i : Invoice) : json :=
  JObj [("id", JStr (inv_id i)); ("external_id", JStr (inv_external_id i));
        ("status", JStr (inv_status i)); ("invoice_url", JStr (inv_invoice_url i))].

(** An Integration Request document.  [ir_output] is [None] when the
    stored text is absent or is not JSON. *)
Record IntegrationRequest : Type := {
  ir_status : Status;
  ir_service : string;
  ir_data : gmap string pyval;
  ir_output : option json;
  reference_doctype : option string;
  reference_docname : option string;
  redirect_to : option string;
  redirect_message : option string;
}.

Definition with_status (st : Status) (d : IntegrationRequest) : IntegrationRequest :=
  {| ir_status := st;
     ir_service := ir_service d;
     ir_data := ir_data d;
     ir_output := ir_output d;
     reference_doctype := reference_doctype d;
     reference_docname := reference_docname d;
     redirect_to := redirect_to d;
     redirect_message := redirect_message d |}.

Record PaymentRequest : Type := {
  reference_name : string;
  grand_total : float;
}.

Record SalesOrderItem : Type := {
  item_code : string;
  rate : float;
  qty : float;
}.

Record SalesOrder : Type := {
  so_items : list SalesOrderItem;
  so_customer : string;
}.

(** ** Arguments of the provider calls *)

Record ItemLine : Type := {
  il_name : string;
  il_price : float;
  il_quantity : float;
}.

Record CustomerBlock : Type := {
  given_names : pyval;
  email : pyval;
  mobile_number : option string;
}.

Record FeeLine : Type := {
  fee_type : string;
  fee_value : Z;
}.

Record InvoiceArgs : Type := {
  external_id : string;
  payer_email : pyval;
  description : pyval;
  amount : pyval;
  customer : CustomerBlock;
  should_send_email : bool;
  invoice_duration : Z;
  success_redirect_url : string;
  failure_redirect_url : string;
  currency : string;
  fees : list FeeLine;
  items : list ItemLine;
}.

Inductive ProviderCall : Type :=
| CreateInvoice (args : InvoiceArgs)
| GetInvoice (invoice_id : json).

(** ** The world of the module *)

(** What the module reads but never writes: the site's URL builder, the
    business documents, and how the provider and the reference document's
    hook answer during one request.  The provider answers [None] when the
    SDK call raises. *)
Record Env : Type := {
  get_url : string -> string;
  payment_requests : gmap string PaymentRequest;
  sales_orders : gmap string SalesOrder;
  item_names : gset string;
  customer_mobile_no : gmap string (option string);
  Invoice_create : InvoiceArgs -> option Invoice;
  Invoice_get : json -> option Invoice;
  reference_doc_exists : option string -> option string -> bool;
  on_payment_authorized : option string -> option string -> result (option string);
}.

(** What the module writes: the Integration Request table, the calls made
    to the provider, the hook calls made, the error log and
    [frappe.local.response]. *)
Record World : Type := {
  integration_requests : gmap string IntegrationRequest;
  provider_calls : list ProviderCall;
  notifications : list (option string * option string * string);
  error_log : list exn;
  response : gmap string string;
}.

Definition set_integration_requests (t : gmap string IntegrationRequest) (w : World) : World :=
  {| integration_requests := t;
     provider_calls := provider_calls w;
     notifications := notifications w;
     error_log := error_log w;
     response := response w |}.

Definition add_provider_call (c : ProviderCall) (w : World) : World :=
  {| integration_requests := integration_requests w;
     provider_calls := provider_calls w ++ [c];
     notifications := notifications w;
     error_log := error_log w;
     response := response w |}.

Definition add_notification (n : option string * option string * string) (w : World) : World :=
  {| integration_requests := integration_requests w;
     provider_calls := provider_calls w;
     notifications := notifications w ++ [n];
     error_log := error_log w;
     response := response w |}.

Definition add_error_log (e : exn) (w : World) : World :=
  {| integration_requests := integration_requests w;
     provider_calls := provider_calls w;
     notifications := notifications w;
     error_log := error_log w ++ [e];
     response := response w |}.

Definition set_response (key value : string) (w : World) : World :=
  {| integration_requests := integration_requests w;
     provider_calls := provider_calls w;
     notifications := notifications w;
     error_log := error_log w;
     response := <[key := value]> (response w) |}.

(** ** State and exceptions *)

Definition M (A : Type) : Type := World -> result A * World.

Global Instance M_ret : MRet M := fun A a w => (Ok a, w).

Global Instance M_bind : MBind M := fun A B f m w =>
  match m w with
  | (Ok a, w') => f a w'
  | (Raise e, w') => (Raise e, w')
  end.

Definition raise {A} (e : exn) : M A := fun w => (Raise e, w).

Definition lift {A} (r : result A) : M A := fun w => (r, w).

(** [try: body / except: handler]; every modelled exception is caught. *)
Definition try_except {A} (body : M A) (handler : exn -> M A) : M A := fun w =>
  match body w with
  | (Ok a, w') => (Ok a, w')
  | (Raise e, w') => handler e w'
  end.

(** Reading a local variable that may not have been assigned yet. *)
Definition read_local {A} (name : string) (v : option A) : M A :=
  match v with
  | Some a => mret a
  | None => raise (UnboundLocalError name)
  end.

Global Instance result_ret : MRet result := fun A a => Ok a.

Global Instance result_bind : MBind result := fun A B f r =>
  match r with
  | Ok a => f a
  | Raise e => Raise e
  end.

(** ** Frappe and SDK primitives *)

(** [frappe.throw(msg)] raises a validation error. *)
Definition frappe_throw {A} (msg : string) : M A := raise (ValidationError msg).

(** [frappe.log_error(frappe.get_traceback())]: the traceback of the
    exception being handled goes to the error log. *)
Definition log_error (e : exn) : M unit := fun w => (Ok tt, add_error_log e w).

(** [frappe.get_doc("Integration Request", token)]. *)
Definition get_integration_request (token : string) : M IntegrationRequest := fun w =>
  match integration_requests w !! token with
  | Some d => (Ok d, w)
  | None => (Raise (DoesNotExistError "Integration Request"), w)
  end.

(** [doc.update_status(data, status)] with an empty [data]: the document
    gets the status and is saved. *)
Definition update_status (name : string) (d : IntegrationRequest) (st : Status) : M unit :=
  fun w => (Ok tt, set_integration_requests
                     (<[name := with_status st d]> (integration_requests w)) w).

Definition pystr_opt (v : option pyval) : option string :=
  match v with
  | Some (PyStr s) => Some s
  | _ => None
  end.

(** [create_request_log(data, service_name=, name=, output=)]: a new
    Integration Request named [name] is inserted with the table's initial
    status, the request data, the reference fields found in the data and
    the given output. *)
Definition create_request_log (data : gmap string pyval) (service_name name : string)
    (output : json) : M unit := fun w =>
  let doc := {| ir_status := Pending;
                ir_service := service_name;
                ir_data := data;
                ir_output := Some output;
                reference_doctype := pystr_opt (data !! "reference_doctype");
                reference_docname := pystr_opt (data !! "reference_docname");
                redirect_to := None;
                redirect_message := None |} in
  (Ok tt, set_integration_requests (<[name := doc]> (integration_requests w)) w).

(** [xendit_instance.Invoice.create(...)] and [Invoice.get(invoice_id=)]:
    the call is made, and the SDK raises or returns the invoice. *)
Definition provider_create (env : Env) (args : InvoiceArgs) : M Invoice := fun w =>
  let w' := add_provider_call (CreateInvoice args) w in
  match Invoice_create env args with
  | Some i => (Ok i, w')
  | None => (Raise ProviderFault, w')
  end.

Definition provider_get (env : Env) (invoice_id : json) : M Invoice := fun w =>
  let w' := add_provider_call (GetInvoice invoice_id) w in
  match Invoice_get env invoice_id with
  | Some i => (Ok i, w')
  | None => (Raise ProviderFault, w')
  end.

(** [frappe.get_doc(doctype, docname).run_method("on_payment_authorized",
    "Completed")]: fetching the reference document can fail; otherwise the
    hook runs and returns its redirect target or raises. *)
Definition run_on_payment_authorized (env : Env) (doctype docname : option string)
    : M (option string) := fun w =>
  if reference_doc_exists env doctype docname then
    (on_payment_authorized env doctype docname,
     add_notification (doctype, docname, "Completed") w)
  else (Raise (DoesNotExistError (format_opt doctype)), w).

(** ** The module *)

Definition api_path : string :=
  "/api/method/payments.payment_gateways.doctype.xendit_settings.xendit_settings".

Module XenditSettings.

Definition supported_currencies : list string := ["IDR"].

Definition unsupported_currency_message (currency : string) : string :=
  "Please select another payment method. Xendit does not support transactions in currency '"
  +:+ currency +:+ "'".

(** Lines 31-37. *)
Definition validate_transaction_currency (currency : string) : M unit :=
  if negb (existsb (String.eqb currency) supported_currencies)
  then frappe_throw (unsupported_currency_message currency)
  else mret tt.

(** The loop of lines 81-89: one line per item of the sales order;
    fetching an item that does not exist raises. *)
Fixpoint build_items (env : Env) (l : list SalesOrderItem) : M (list ItemLine) :=
  match l with
  | [] => mret []
  | item :: rest =>
      if decide (item_code item ∈ item_names env) then
        lines ← build_items env rest;
        mret ({| il_name := item_code item;
                 il_price := rate item;
                 il_quantity := qty item |} :: lines)
      else raise (DoesNotExistError "Item")
  end.

(** Lines 61-134.  The construction of the SDK object from the stored
    secret makes no call and is left out. *)
Definition execute_set_express_checkout (env : Env) (kwargs : gmap string pyval)
    : M Invoice :=
  '(name, payment_request) ←
    try_except
      (docname ← lift (getitem kwargs "reference_docname");
       match docname with
       | PyStr n =>
           match payment_requests env !! n with
           | Some pr => mret (n, pr)
           | None => raise (DoesNotExistError "Payment Request")
           end
       | _ => raise (DoesNotExistError "Payment Request")
       end)
      (fun _ => frappe_throw "Referenced doctype for checkout is not a Payment Request");
  sales_order ←
    try_except
      (match sales_orders env !! reference_name payment_request with
       | Some so => mret so
       | None => raise (DoesNotExistError "Sales Order")
       end)
      (fun _ => frappe_throw "Doctype referenced by Payment Request is not a Sales Order");
  items ← build_items env (so_items sales_order);
  payer_name ← lift (getitem kwargs "payer_name");
  payer_email ← lift (getitem kwargs "payer_email");
  mobile_number ←
    match customer_mobile_no env !! so_customer sales_order with
    | Some m => mret m
    | None => raise (DoesNotExistError "Customer")
    end;
  let customer := {| given_names := payer_name;
                     email := payer_email;
                     mobile_number := mobile_number |} in
  value ← lift (Fee.gateway_fee (grand_total payment_request));
  let fees := [{| fee_type := "GATEWAY"; fee_value := value |}] in
  let payment_confirmation_url :=
    get_url env (api_path +:+ ".confirm_payment?token=" +:+ name) in
  invoice ←
    try_except
      (payer_email ← lift (getitem kwargs "payer_email");
       description ← lift (getitem kwargs "description");
       amount ← lift (getitem kwargs "amount");
       provider_create env
         {| external_id := name;
            payer_email := payer_email;
            description := description;
            amount := amount;
            customer := customer;
            should_send_email := true;
            invoice_duration := 600;
            success_redirect_url := payment_confirmation_url;
            failure_redirect_url := payment_confirmation_url;
            currency := "IDR";
            fees := fees;
            items := items |})
      (fun _ => frappe_throw "Failed to create Xendit Invoice, please check your settings");
  mret invoice.

(** Lines 42-59. *)
Definition get_payment_url (env : Env) (kwargs : gmap string pyval) : M string :=
  title ← lift (getitem kwargs "title" ≫= decode_ascii);
  let kwargs := <["title" := PyStr title]> kwargs in
  description ← lift (getitem kwargs "description" ≫= decode_ascii);
  let kwargs := <["description" := PyStr description]> kwargs in
  payer_name ← lift (getitem kwargs "payer_name" ≫= decode_ascii);
  let kwargs := <["payer_name" := PyStr payer_name]> kwargs in
  response ← execute_set_express_checkout env kwargs;
  let kwargs := <["is_remote_request" := PyInt 1]> kwargs in
  create_request_log kwargs "Xendit" (inv_external_id response) (invoice_json response);;
  mret (inv_invoice_url response).

(** Lines 136-137. *)
Definition get_redirect_uri (env : Env) (integration_request_id : string) : string :=
  get_url env (api_path +:+ ".confirm_payment?token=" +:+ integration_request_id).

End XenditSettings.

(** Lines 167-171 as [confirm_payment] calls them (line 193): with an empty
    [data] and without [doc], so that the document is fetched again by its
    token and only its status is written. *)
Definition update_integration_request_status (token : string) (status : Status) : M unit :=
  doc ← get_integration_request token;
  update_status token doc status.

(** Lines 218-233. *)
Definition setup_redirect (env : Env) (data : IntegrationRequest) (redirect_url : string)
    (custom_redirect_to : option string) (redirect : bool) : M unit :=
  let redirect_to := or_None (redirect_to data) in
  let redirect_message := or_None (redirect_message data) in
  let redirect_to :=
    match or_None custom_redirect_to with
    | Some c => Some c
    | None => redirect_to
    end in
  let redirect_url :=
    match redirect_to with
    | Some r => redirect_url +:+ "&" +:+ Urllib.urlencode "redirect_to" r
    | None => redirect_url
    end in
  let redirect_url :=
    match redirect_message with
    | Some m => redirect_url +:+ "&" +:+ Urllib.urlencode "redirect_message" m
    | None => redirect_url
    end in
  if redirect then
    fun w => (Ok tt, set_response "location" (get_url env redirect_url)
                       (set_response "type" "redirect" w))
  else mret tt.

(** [json.loads(integration_request.output)["id"]]. *)
Definition stored_invoice_id (d : IntegrationRequest) : result json :=
  match ir_output d with
  | Some out => json_getitem out "id"
  | None => Raise TypeError
  end.

(** The invoice the provider returns for the id stored in a request, if
    there is such an id and the provider answers. *)
Definition fetched_invoice (env : Env) (d : IntegrationRequest) : option Invoice :=
  match stored_invoice_id d with
  | Ok invoice_id => Invoice_get env invoice_id
  | Raise _ => None
  end.

Definition fetch_failed : string :=
  "Failed to fetch Xendit Invoice, please check your settings".

Definition success_url (data : IntegrationRequest) : string :=
  "payment-success?doctype=" +:+ format_opt (reference_doctype data)
  +:+ "&docname=" +:+ format_opt (reference_docname data).

(** Lines 174-215.  The two locals assigned in the branches are returned
    by the branch; [custom_redirect_to] is bound only in the paid branch
    and is read when the arguments of [setup_redirect] are evaluated. *)
Definition confirm_payment (env : Env) (token : string) : M unit :=
  '(integration_request, invoice) ←
    try_except
      (integration_request ← get_integration_request token;
       invoice_id ← lift (stored_invoice_id integration_request);
       invoice ← provider_get env invoice_id;
       mret (integration_request, invoice))
      (fun _ => frappe_throw fetch_failed);
  try_except
    ('(redirect_url, custom_redirect_to) ←
       (if String.eqb (inv_status invoice) "PAID" then
          update_integration_request_status token Completed;;
          custom_redirect_to ←
            run_on_payment_authorized env
              (reference_doctype integration_request)
              (reference_docname integration_request);
          mret (success_url integration_request, Some custom_redirect_to)
        else mret ("payment-failed", None));
     custom_redirect_to ← read_local "custom_redirect_to" custom_redirect_to;
     setup_redirect env integration_request redirect_url custom_redirect_to true)
    (fun e => log_error e).

(** ** Vocabulary of the properties *)

(** The world after a confirmation has seen PAID and marked the request
    Completed, and after it has then called the hook. *)
Definition paid_world (token : string) (d : IntegrationRequest) (invoice_id : json)
    (w : World) : World :=
  set_integration_requests (<[token := with_status Completed d]> (integration_requests w))
    (add_provider_call (GetInvoice invoice_id) w).

Definition notified_world (token : string) (d : IntegrationRequest) (invoice_id : json)
    (w : World) : World :=
  add_notification (reference_doctype d, reference_docname d, "Completed")
    (paid_world token d invoice_id w).

(** One carried-forward hint as it appears in the query string. *)
Definition query_param (name : string) (value : option string) : string :=
  match value with
  | Some v => "&" +:+ name +:+ "=" +:+ Urllib.quote_plus v
  | None => ""
  end.

(** The hint sent as [redirect_to]: the hook's target when it is truthy,
    the document's own otherwise. *)
Definition effective_redirect_to (data : IntegrationRequest) (custom : option string)
    : option string :=
  match or_None custom with
  | Some c => Some c
  | None => or_None (redirect_to data)
  end.

Definition create_failed : string :=
  "Failed to create Xendit Invoice, please check your settings".

(** What every invoice-creation request of the module looks like. *)
Record checkout_args (env : Env) (kwargs : gmap string pyval) (args : InvoiceArgs) : Prop := {
  args_token : kwargs !! "reference_docname" = Some (PyStr (external_id args));
  args_request : is_Some (payment_requests env !! external_id args);
  args_success :
    success_redirect_url args =
      get_url env (api_path +:+ ".confirm_payment?token=" +:+ external_id args);
  args_failure : failure_redirect_url args = success_redirect_url args;
  args_currency : currency args = "IDR";
}.

(** The Integration Request that [get_payment_url] inserts. *)
Definition new_request (kwargs : gmap string pyval) (inv : Invoice) : IntegrationRequest :=
  {| ir_status := Pending;
     ir_service := "Xendit";
     ir_data := kwargs;
     ir_output := Some (invoice_json inv);
     reference_doctype := pystr_opt (kwargs !! "reference_doctype");
     reference_docname := pystr_opt (kwargs !! "reference_docname");
     redirect_to := None;
     redirect_message := None |}.

Inductive checkout_outcome (env : Env) (kwargs : gmap string pyval) (w : World)
  : result Invoice * World -> Prop :=
| checkout_stopped (e : exn) :
    checkout_outcome env kwargs w (Raise e, w)
| checkout_refused (args : InvoiceArgs) :
    checkout_args env kwargs args ->
    Invoice_create env args = None ->
    checkout_outcome env kwargs w
      (Raise (ValidationError create_failed), add_provider_call (CreateInvoice args) w)
| checkout_created (args : InvoiceArgs) (inv : Invoice) :
    checkout_args env kwargs args ->
    Invoice_create env args = Some inv ->
    checkout_outcome env kwargs w (Ok inv, add_provider_call (CreateInvoice args) w).

Inductive payment_url_outcome (env : Env) (kwargs : gmap string pyval) (w : World)
  : result string * World -> Prop :=
| url_stopped (e : exn) :
    payment_url_outcome env kwargs w (Raise e, w)
| url_refused (args : InvoiceArgs) :
    checkout_args env kwargs args ->
    Invoice_create env args = None ->
    payment_url_outcome env kwargs w
      (Raise (ValidationError create_failed), add_provider_call (CreateInvoice args) w)
| url_created (args : InvoiceArgs) (inv : Invoice) (data : gmap string pyval) :
    checkout_args env kwargs args ->
    Invoice_create env args = Some inv ->
    payment_url_outcome env kwargs w
      (Ok (inv_invoice_url inv),
       set_integration_requests
         (<[inv_external_id inv := new_request data inv]> (integration_requests w))
         (add_provider_call (CreateInvoice args) w)).

(** The three arguments that are decoded, and what can be decoded. *)
Definition decoded_keys : list string := ["title"; "description"; "payer_name"].

Definition ascii_bytes (v : pyval) : bool :=
  match v with
  | PyBytes b => forallb is_ascii_byte b
  | _ => false
  end.

(** The invoice line of one item of the sales order. *)
Definition item_line (item : SalesOrderItem) : ItemLine :=
  {| il_name := item_code item; il_price := rate item; il_quantity := qty item |}.

Definition item_exists (env : Env) (item : SalesOrderItem) : bool :=
  bool_decide (item_code item ∈ item_names env).

(** Where every field of an invoice-creation request comes from. *)
Record checkout_details (env : Env) (kwargs : gmap string pyval) (args : InvoiceArgs)
    (pr : PaymentRequest) (so : SalesOrder) : Prop := {
  det_request : payment_requests env !! external_id args = Some pr;
  det_order : sales_orders env !! reference_name pr = Some so;
  det_items : items args = map item_line (so_items so);
  det_items_exist : forallb (item_exists env) (so_items so) = true;
  det_fee_value :
    exists value,
      Fee.gateway_fee (grand_total pr) = Ok value
      /\ fees args = [{| fee_type := "GATEWAY"; fee_value := value |}];
  det_amount : kwargs !! "amount" = Some (amount args);
  det_description : kwargs !! "description" = Some (description args);
  det_payer_email : kwargs !! "payer_email" = Some (payer_email args);
  det_given_names : kwargs !! "payer_name" = Some (given_names (customer args));
  det_email : email (customer args) = payer_email args;
  det_mobile :
    customer_mobile_no env !! so_customer so = Some (mobile_number (customer args));
  det_fixed :
    currency args = "IDR" /\ invoice_duration args = 600 /\ should_send_email args = true;
  det_token : kwargs !! "reference_docname" = Some (PyStr (external_id args));
}.

(** The keyword arguments after the three decodings, as they go to
    [execute_set_express_checkout]. *)
Definition decoded_kwargs (kwargs : gmap string pyval) (title description payer_name : string)
    : gmap string pyval :=
  <["payer_name" := PyStr payer_name]>
    (<["description" := PyStr description]> (<["title" := PyStr title]> kwargs)).





(** The outcomes of a confirmation. *)
Inductive confirm_outcome (env : Env) (token : string) (w : World)
  : result unit * World -> Prop :=
| confirm_not_fetched :
    (integration_requests w !! token = None
     \/ exists d e, integration_requests w !! token = Some d /\ stored_invoice_id d = Raise e) ->
    confirm_outcome env token w (Raise (ValidationError fetch_failed), w)
| confirm_provider_down (d : IntegrationRequest) (invoice_id : json) :
    integration_requests w !! token = Some d ->
    stored_invoice_id d = Ok invoice_id ->
    Invoice_get env invoice_id = None ->
    confirm_outcome env token w
      (Raise (ValidationError fetch_failed), add_provider_call (GetInvoice invoice_id) w)
| confirm_unpaid (d : IntegrationRequest) (invoice_id : json) (invoice : Invoice) :
    integration_requests w !! token = Some d ->
    stored_invoice_id d = Ok invoice_id ->
    Invoice_get env invoice_id = Some invoice ->
    inv_status invoice <> "PAID" ->
    confirm_outcome env token w
      (Ok tt, add_error_log (UnboundLocalError "custom_redirect_to")
                (add_provider_call (GetInvoice invoice_id) w))
| confirm_paid_unnotified (d : IntegrationRequest) (invoice_id : json) (invoice : Invoice)
    (e : exn) :
    integration_requests w !! token = Some d ->
    stored_invoice_id d = Ok invoice_id ->
    Invoice_get env invoice_id = Some invoice ->
    inv_status invoice = "PAID" ->
    reference_doc_exists env (reference_doctype d) (reference_docname d) = false ->
    confirm_outcome env token w (Ok tt, add_error_log e (paid_world token d invoice_id w))
| confirm_paid_hook_raised (d : IntegrationRequest) (invoice_id : json) (invoice : Invoice)
    (e : exn) :
    integration_requests w !! token = Some d ->
    stored_invoice_id d = Ok invoice_id ->
    Invoice_get env invoice_id = Some invoice ->
    inv_status invoice = "PAID" ->
    reference_doc_exists env (reference_doctype d) (reference_docname d) = true ->
    on_payment_authorized env (reference_doctype d) (reference_docname d) = Raise e ->
    confirm_outcome env token w (Ok tt, add_error_log e (notified_world token d invoice_id w))
| confirm_paid_redirected (d : IntegrationRequest) (invoice_id : json) (invoice : Invoice)
    (c : option string) :
    integration_requests w !! token = Some d ->
    stored_invoice_id d = Ok invoice_id ->
    Invoice_get env invoice_id = Some invoice ->
    inv_status invoice = "PAID" ->
    reference_doc_exists env (reference_doctype d) (reference_docname d) = true ->
    on_payment_authorized env (reference_doctype d) (reference_docname d) = Ok c ->
    confirm_outcome env token w
      (Ok tt,
       set_response "location"
         (get_url env (success_url d
                       +:+ query_param "redirect_to" (effective_redirect_to d c)
                       +:+ query_param "redirect_message" (or_None (redirect_message d))))
         (set_response "type" "redirect" (notified_world token d invoice_id w))).

(** ** A small shop, for the concrete runs *)
Module Shop.

Definition site_url (uri : string) : string :=
  if String.prefix "/" uri then "https://shop.example" +:+ uri
  else "https://shop.example/" +:+ uri.

Definition paid_invoice : Invoice :=
  {| inv_id := "inv-1"; inv_external_id := "PR-1";
     inv_status := "PAID"; inv_invoice_url := "https://checkout.example/inv-1" |}.

Definition pending_invoice : Invoice :=
  {| inv_id := "inv-1"; inv_external_id := "PR-1";
     inv_status := "PENDING"; inv_invoice_url := "https://checkout.example/inv-1" |}.

(** A provider that creates the invoice and reports [answer] on a get, or
    the same shop with the provider down. *)
Definition env_with (up : bool) (answer : Invoice) : Env :=
  {| get_url := site_url;
     payment_requests := {[ "PR-1" := {| reference_name := "SO-1"; grand_total := 100000%float |} ]};
     sales_orders := {[ "SO-1" := {| so_items := [{| item_code := "TEA"; rate := 50000%float; qty := 2%float |}];
                                    so_customer := "Ann" |} ]};
     item_names := {[ "TEA" ]};
     customer_mobile_no := {[ "Ann" := None ]};
     Invoice_create := fun _ => if up then Some pending_invoice else None;
     Invoice_get := fun _ => if up then Some answer else None;
     reference_doc_exists := fun _ _ => true;
     on_payment_authorized := fun _ _ => Ok None |}.

(** The shop with a paying customer, where the reference document may be
    missing and its hook answers [hook]. *)
Definition env_hook (found : bool) (hook : result (option string)) : Env :=
  {| get_url := site_url;
     payment_requests := payment_requests (env_with true paid_invoice);
     sales_orders := sales_orders (env_with true paid_invoice);
     item_names := item_names (env_with true paid_invoice);
     customer_mobile_no := customer_mobile_no (env_with true paid_invoice);
     Invoice_create := Invoice_create (env_with true paid_invoice);
     Invoice_get := Invoice_get (env_with true paid_invoice);
     reference_doc_exists := fun _ _ => found;
     on_payment_authorized := fun _ _ => hook |}.

Definition request (st : Status) : IntegrationRequest :=
  {| ir_status := st;
     ir_service := "Xendit";
     ir_data := ∅;
     ir_output := Some (invoice_json pending_invoice);
     reference_doctype := Some "Payment Request";
     reference_docname := Some "PR-1";
     redirect_to := None;
     redirect_message := None |}.

Definition request_with_message (m : string) : IntegrationRequest :=
  {| ir_status := Completed;
     ir_service := "Xendit";
     ir_data := ∅;
     ir_output := Some (invoice_json paid_invoice);
     reference_doctype := Some "Payment Request";
     reference_docname := Some "PR-1";
     redirect_to := None;
     redirect_message := Some m |}.

Definition empty_world : World :=
  {| integration_requests := ∅;
     provider_calls := [];
     notifications := [];
     error_log := [];
     response := ∅ |}.

Definition world_with (st : Status) : World :=
  set_integration_requests {[ "PR-1" := request st ]} empty_world.

Definition kwargs : gmap string pyval :=
  list_to_map
    [("title", PyBytes [Byte.x54; Byte.x65; Byte.x61]);
     ("description", PyBytes [Byte.x54; Byte.x65; Byte.x61]);
     ("payer_name", PyBytes [Byte.x41; Byte.x6e; Byte.x6e]);
     ("payer_email", PyStr "ann@shop.example");
     ("amount", PyFloat 100000%float);
     ("reference_doctype", PyStr "Payment Request");
     ("reference_docname", PyStr "PR-1")].

(** The keyword arguments after decoding, and the invoice the shop asks
    the provider for. *)
Definition decoded : gmap string pyval := decoded_kwargs kwargs "Tea" "Tea" "Ann".

Definition invoice_args : InvoiceArgs :=
  {| external_id := "PR-1";
     payer_email := PyStr "ann@shop.example";
     description := PyStr "Tea";
     amount := PyFloat 100000%float;
     customer := {| given_names := PyStr "Ann";
                    email := PyStr "ann@shop.example";
                    mobile_number := None |};
     should_send_email := true;
     invoice_duration := 600;
     success_redirect_url := site_url (api_path +:+ ".confirm_payment?token=PR-1");
     failure_redirect_url := site_url (api_path +:+ ".confirm_payment?token=PR-1");
     currency := "IDR";
     fees := [{| fee_type := "GATEWAY"; fee_value := 4000 |}];
     items := [{| il_name := "TEA"; il_price := 50000%float; il_quantity := 2%float |}] |}.

End Shop.

(** * Properties *)

(** ** Unfolding the monad *)

Ltac run :=
  unfold mbind, M_bind, result_bind, mret, M_ret, result_ret, lift, raise,
    try_except, frappe_throw, read_local, log_error in *;
  simpl in *.

(** ** The fee and the encoder on examples *)

Lemma lit_2_9_is_literal : Fee.lit_2_9 = 0x1.7333333333333p+1%float.
Proof. reflexivity. Qed.

Lemma lit_0_029_is_literal : Fee.lit_0_029 = 0x1.db22d0e560419p-6%float.
Proof. reflexivity. Qed.

(** The example of the specification: an amount of 100000 gives 4000. *)
Lemma gateway_fee_100000 : Fee.gateway_fee 100000%float = Ok 4000.
Proof. vm_compute. reflexivity. Qed.

(** C3 (code defect): the fee is meant to be 2000 plus 2.9% of the amount
    truncated down to a multiple of 1000, which is 31000 for an amount of
    1000000, in exact arithmetic and in binary64 arithmetic on 0.029 alike;
    the binary64 evaluation of [(2.9 / 100) * 1000000 / 1000] gives
    28.999999999999996, and the code charges 30000. *)
Theorem C3_fee_at_one_million :
  Fee.gateway_fee 1000000%float = Ok 30000
  /\ Fee.ComputeFee_exact 1000000 = 31000
  /\ Fee.ComputeFee_binary64 1000000%float = Ok 31000
  /\ Fee.float_of_Z 1000000 = 1000000%float
  /\ (((Fee.lit_2_9 / 100) * 1000000) / 1000 <? 29)%float = true.
Proof. vm_compute. repeat split; reflexivity. Qed.

Example urlencode_message :
  Urllib.urlencode "redirect_message" "hi there" = "redirect_message=hi+there".
Proof. reflexivity. Qed.

Example urlencode_target :
  Urllib.urlencode "redirect_to" "thanks?id=7" = "redirect_to=thanks%3Fid%3D7".
Proof. reflexivity. Qed.

(** ** Confirmation, case by case *)

Section Confirm.

Variable env : Env.
Variable token : string.
Variable w : World.

Lemma confirm_payment_unknown :
  integration_requests w !! token = None ->
  confirm_payment env token w = (Raise (ValidationError fetch_failed), w).
Proof.
  intros Hnone. unfold confirm_payment, get_integration_request. run.
  now rewrite Hnone.
Qed.

Variable d : IntegrationRequest.
Hypothesis Hdoc : integration_requests w !! token = Some d.

Lemma confirm_payment_no_id (e : exn) :
  stored_invoice_id d = Raise e ->
  confirm_payment env token w = (Raise (ValidationError fetch_failed), w).
Proof.
  intros Hid. unfold confirm_payment, get_integration_request. run.
  now rewrite Hdoc, Hid.
Qed.

Variable invoice_id : json.
Hypothesis Hid : stored_invoice_id d = Ok invoice_id.

Lemma confirm_payment_provider_down :
  Invoice_get env invoice_id = None ->
  confirm_payment env token w =
    (Raise (ValidationError fetch_failed), add_provider_call (GetInvoice invoice_id) w).
Proof.
  intros Hget. unfold confirm_payment, get_integration_request, provider_get. run.
  now rewrite Hdoc, Hid, Hget.
Qed.

Variable invoice : Invoice.
Hypothesis Hget : Invoice_get env invoice_id = Some invoice.

Lemma confirm_payment_not_paid :
  inv_status invoice <> "PAID" ->
  confirm_payment env token w =
    (Ok tt, add_error_log (UnboundLocalError "custom_redirect_to")
              (add_provider_call (GetInvoice invoice_id) w)).
Proof.
  intros Hst. unfold confirm_payment, get_integration_request, provider_get. run.
  rewrite Hdoc, Hid, Hget.
  apply String.eqb_neq in Hst. now rewrite Hst.
Qed.

Hypothesis Hpaid : inv_status invoice = "PAID".

Lemma confirm_payment_reference_missing :
  reference_doc_exists env (reference_doctype d) (reference_docname d) = false ->
  confirm_payment env token w =
    (Ok tt, add_error_log (DoesNotExistError (format_opt (reference_doctype d)))
              (paid_world token d invoice_id w)).
Proof.
  intros Hex. unfold confirm_payment, update_integration_request_status,
    get_integration_request, provider_get, update_status, run_on_payment_authorized. run.
  rewrite Hdoc, Hid, Hget, Hpaid. simpl. now rewrite Hdoc, Hex.
Qed.

Hypothesis Hexists :
  reference_doc_exists env (reference_doctype d) (reference_docname d) = true.

Lemma confirm_payment_hook_raises (e : exn) :
  on_payment_authorized env (reference_doctype d) (reference_docname d) = Raise e ->
  confirm_payment env token w =
    (Ok tt, add_error_log e (notified_world token d invoice_id w)).
Proof.
  intros Hhook. unfold confirm_payment, update_integration_request_status,
    get_integration_request, provider_get, update_status, run_on_payment_authorized. run.
  rewrite Hdoc, Hid, Hget, Hpaid. simpl. now rewrite Hdoc, Hexists, Hhook.
Qed.

Lemma confirm_payment_paid (c : option string) :
  on_payment_authorized env (reference_doctype d) (reference_docname d) = Ok c ->
  confirm_payment env token w =
    setup_redirect env d (success_url d) c true (notified_world token d invoice_id w).
Proof.
  intros Hhook. unfold confirm_payment, update_integration_request_status,
    get_integration_request, provider_get, update_status, run_on_payment_authorized. run.
  rewrite Hdoc, Hid, Hget, Hpaid. simpl. rewrite Hdoc, Hexists, Hhook.
  unfold setup_redirect. reflexivity.
Qed.

End Confirm.

(** ** Strings *)

Lemma append_cons (x : ascii) (a b : string) :
  String x a +:+ b = String x (a +:+ b).
Proof. reflexivity. Qed.

Lemma append_nil_l (b : string) : "" +:+ b = b.
Proof. reflexivity. Qed.

Lemma string_append_assoc (a b c : string) : (a +:+ b) +:+ c = a +:+ (b +:+ c).
Proof.
  induction a as [|x a IH]; [reflexivity|].
  now rewrite !append_cons, IH.
Qed.

Lemma string_append_nil_r (a : string) : a +:+ "" = a.
Proof.
  induction a as [|x a IH]; [reflexivity|].
  now rewrite append_cons, IH.
Qed.

Lemma prefix_append (a b : string) : String.prefix a (a +:+ b) = true.
Proof.
  induction a as [|x a IH]; [now destruct b|].
  rewrite append_cons. simpl.
  destruct (ascii_dec x x) as [_|Hne]; [exact IH|now elim Hne].
Qed.

Lemma all_chars_append (p : ascii -> bool) (a b : string) :
  Urllib.all_chars p (a +:+ b) = Urllib.all_chars p a && Urllib.all_chars p b.
Proof.
  induction a as [|x a IH]; [reflexivity|].
  rewrite append_cons. simpl. now rewrite IH, andb_assoc.
Qed.

(** ** Quoting *)

Lemma percent_chars (c : ascii) :
  Urllib.all_chars Urllib.url_char (Urllib.percent c) = true.
Proof. destruct c as [[] [] [] [] [] [] [] []]; reflexivity. Qed.

Lemma quote_chars (safe : list ascii) (s : string) :
  Urllib.all_chars (fun c => Urllib.url_char c || existsb (Ascii.eqb c) safe)
    (Urllib.quote safe s) = true.
Proof.
  induction s as [|c s IH]; simpl; [reflexivity|].
  rewrite all_chars_append, IH, andb_true_r.
  destruct (Urllib.always_safe c || existsb (Ascii.eqb c) safe) eqn:Hsafe; simpl.
  - rewrite andb_true_r. unfold Urllib.url_char.
    apply orb_prop in Hsafe as [->| ->]; [reflexivity|apply orb_true_r].
  - generalize (percent_chars c). simpl.
    destruct (Urllib.percent c) as [|x [|y [|z t]]] eqn:Hp; try discriminate.
    unfold Urllib.percent in Hp. injection Hp as <- <- <- <-.
    simpl. intros H.
    repeat (apply andb_prop in H as [?H H]).
    repeat (apply andb_true_intro; split); try reflexivity;
      apply orb_true_intro; left; assumption.
Qed.

Lemma space_to_plus_chars (s : string) :
  Urllib.all_chars (fun c => Urllib.url_char c || existsb (Ascii.eqb c) [" "%char]) s = true ->
  Urllib.all_chars Urllib.url_char (Urllib.space_to_plus s) = true.
Proof.
  induction s as [|c s IH]; simpl; [reflexivity|].
  intros H. apply andb_prop in H as [Hc Hs].
  rewrite (IH Hs), andb_true_r.
  destruct (Ascii.eqb c " ") eqn:Hsp; [reflexivity|].
  now rewrite orb_false_r in Hc.
Qed.

(** A quoted string holds nothing but unreserved characters, [%] and [+]. *)
Lemma quote_plus_chars (s : string) :
  Urllib.all_chars Urllib.url_char (Urllib.quote_plus s) = true.
Proof.
  unfold Urllib.quote_plus. destruct (Urllib.has_space s).
  - apply space_to_plus_chars, quote_chars.
  - generalize (quote_chars [] s). simpl.
    intros H. erewrite <- H. clear H.
    induction (Urllib.quote [] s) as [|c t IH]; simpl; [reflexivity|].
    now rewrite IH, orb_false_r.
Qed.

(** ** The redirect builder *)

Lemma setup_redirect_location (env : Env) (data : IntegrationRequest) (url : string)
    (custom : option string) (w : World) :
  setup_redirect env data url custom true w =
    (Ok tt,
     set_response "location"
       (get_url env (url +:+ query_param "redirect_to" (effective_redirect_to data custom)
                        +:+ query_param "redirect_message" (or_None (redirect_message data))))
       (set_response "type" "redirect" w)).
Proof.
  unfold setup_redirect, effective_redirect_to, query_param, Urllib.urlencode.
  destruct (or_None custom) as [c|]; destruct (or_None (redirect_to data)) as [r|];
    destruct (or_None (redirect_message data)) as [m|];
    simpl; rewrite ?string_append_assoc, ?string_append_nil_r; reflexivity.
Qed.

(** ** Checkout, case by case *)

Lemma build_items_pure (env : Env) (l : list SalesOrderItem) (w : World) :
  snd (XenditSettings.build_items env l w) = w.
Proof.
  induction l as [|item rest IH]; simpl; [reflexivity|].
  destruct (decide (item_code item ∈ item_names env)) as [Hin|Hnin]; [|reflexivity].
  run. destruct (XenditSettings.build_items env rest w) as [[lines|e] w1];
    simpl in *; now subst.
Qed.

Lemma execute_set_express_checkout_outcome (env : Env) (kwargs : gmap string pyval)
    (w : World) :
  checkout_outcome env kwargs w (XenditSettings.execute_set_express_checkout env kwargs w).
Proof.
  unfold XenditSettings.execute_set_express_checkout. run.
  destruct (getitem kwargs "reference_docname") as [docname|e] eqn:Hname;
    [|apply checkout_stopped].
  destruct docname as [|n| | |]; try apply checkout_stopped.
  destruct (payment_requests env !! n) as [pr|] eqn:Hpr; [|apply checkout_stopped].
  destruct (sales_orders env !! reference_name pr) as [so|]; [|apply checkout_stopped].
  generalize (build_items_pure env (so_items so) w).
  destruct (XenditSettings.build_items env (so_items so) w) as [[lines|e] w1];
    simpl; intros ->; [|apply checkout_stopped].
  destruct (getitem kwargs "payer_name") as [payer_name|e]; [|apply checkout_stopped].
  destruct (getitem kwargs "payer_email") as [payer_email|e]; [|apply checkout_stopped].
  destruct (customer_mobile_no env !! so_customer so) as [mobile|]; [|apply checkout_stopped].
  destruct (Fee.gateway_fee (grand_total pr)) as [value|e]; [|apply checkout_stopped].
  destruct (getitem kwargs "description") as [description|e]; [|apply checkout_stopped].
  destruct (getitem kwargs "amount") as [amount|e]; [|apply checkout_stopped].
  unfold provider_create.
  match goal with
  | |- context [Invoice_create env ?a] => set (args := a)
  end.
  assert (Hargs : checkout_args env kwargs args).
  { unfold getitem in Hname. destruct (kwargs !! "reference_docname") eqn:Hk; [|discriminate].
    injection Hname as ->.
    split; simpl; [exact Hk|now rewrite Hpr|reflexivity|reflexivity|reflexivity]. }
  destruct (Invoice_create env args) as [inv|] eqn:Hcreate.
  - now apply checkout_created.
  - now apply checkout_refused.
Qed.

Lemma checkout_args_decoded (env : Env) (kwargs : gmap string pyval) (t d p : string)
    (args : InvoiceArgs) :
  checkout_args env
    (<["payer_name" := PyStr p]> (<["description" := PyStr d]> (<["title" := PyStr t]> kwargs)))
    args ->
  checkout_args env kwargs args.
Proof.
  intros [Htoken Hreq Hs Hf Hc]. split; try assumption.
  now rewrite !lookup_insert_ne in Htoken by discriminate.
Qed.

Lemma get_payment_url_outcome (env : Env) (kwargs : gmap string pyval) (w : World) :
  payment_url_outcome env kwargs w (XenditSettings.get_payment_url env kwargs w).
Proof.
  unfold XenditSettings.get_payment_url. run.
  destruct (getitem kwargs "title") as [v|e]; [|apply url_stopped].
  destruct (decode_ascii v) as [t|e]; [|apply url_stopped].
  destruct (getitem _ "description") as [v'|e]; [|apply url_stopped].
  destruct (decode_ascii v') as [d|e]; [|apply url_stopped].
  destruct (getitem _ "payer_name") as [v''|e]; [|apply url_stopped].
  destruct (decode_ascii v'') as [p|e]; [|apply url_stopped].
  match goal with
  | |- context [XenditSettings.execute_set_express_checkout env ?k w] =>
      destruct (execute_set_express_checkout_outcome env k w) as [e|args Hargs Hnone|args inv Hargs Hsome]
  end.
  - apply url_stopped.
  - apply url_refused; [|exact Hnone]. eapply checkout_args_decoded, Hargs.
  - unfold create_request_log. simpl.
    apply (url_created env kwargs w args inv); [|exact Hsome].
    eapply checkout_args_decoded, Hargs.
Qed.

Lemma decode_ascii_raises (v : pyval) :
  ascii_bytes v = false -> exists e, decode_ascii v = Raise e.
Proof.
  destruct v as [| |b| |]; simpl; intros H; eauto.
  rewrite H. eauto.
Qed.

Lemma app_singleton_neq {A} (l : list A) (x : A) : l <> l ++ [x].
Proof.
  intros H. apply (f_equal (@length A)) in H.
  rewrite length_app in H. simpl in H. lia.
Qed.

(** * The claims *)

(** ** Currency validation *)

(** C7: a currency other than IDR is refused with the validation error
    that names it, IDR is accepted, and the validation touches nothing:
    in particular it makes no provider call. *)
Theorem C7_validate_transaction_currency (currency : string) (w : World) :
  currency <> "IDR" ->
  XenditSettings.validate_transaction_currency currency w =
    (Raise (ValidationError (XenditSettings.unsupported_currency_message currency)), w)
  /\ XenditSettings.validate_transaction_currency "IDR" w = (Ok tt, w)
  /\ provider_calls (snd (XenditSettings.validate_transaction_currency currency w))
     = provider_calls w.
Proof.
  intros Hne. unfold XenditSettings.validate_transaction_currency. simpl.
  apply String.eqb_neq in Hne. rewrite Hne. simpl. auto.
Qed.

Lemma C7_witness :
  XenditSettings.validate_transaction_currency "USD" Shop.empty_world =
    (Raise (ValidationError (XenditSettings.unsupported_currency_message "USD")),
     Shop.empty_world)
  /\ XenditSettings.validate_transaction_currency "IDR" Shop.empty_world
     = (Ok tt, Shop.empty_world)
  /\ provider_calls (snd (XenditSettings.validate_transaction_currency "USD" Shop.empty_world))
     = provider_calls Shop.empty_world.
Proof. apply (C7_validate_transaction_currency "USD" Shop.empty_world). discriminate. Defined.

(** ** Checkout *)

(** C10: when the title, the description or the payer name is given but
    is not a byte string of ASCII bytes (an ordinary string, say),
    [get_payment_url] raises and leaves the world as it was: no provider
    call, no Integration Request. *)
Theorem C10_get_payment_url_needs_ascii_bytes (env : Env) (kwargs : gmap string pyval)
    (w : World) (key : string) (v : pyval) :
  In key decoded_keys ->
  kwargs !! key = Some v ->
  ascii_bytes v = false ->
  exists e, XenditSettings.get_payment_url env kwargs w = (Raise e, w).
Proof.
  intros Hkey Hv Hbad.
  destruct (decode_ascii_raises v Hbad) as [e0 He0].
  unfold XenditSettings.get_payment_url. run.
  destruct (getitem kwargs "title") as [v1|e] eqn:H1; [|eauto].
  destruct (decode_ascii v1) as [t|e] eqn:D1; [|eauto].
  destruct (getitem _ "description") as [v2|e] eqn:H2; [|eauto].
  destruct (decode_ascii v2) as [d|e] eqn:D2; [|eauto].
  destruct (getitem _ "payer_name") as [v3|e] eqn:H3; [|eauto].
  destruct (decode_ascii v3) as [p|e] eqn:D3; [|eauto].
  exfalso. unfold getitem in H1, H2, H3.
  rewrite !lookup_insert_ne in H3 by discriminate.
  rewrite !lookup_insert_ne in H2 by discriminate.
  destruct Hkey as [<-|[<-|[<-|[]]]]; rewrite Hv in *.
  - injection H1 as <-. congruence.
  - injection H2 as <-. congruence.
  - injection H3 as <-. congruence.
Qed.

Lemma C10_witness :
  exists e,
    XenditSettings.get_payment_url (Shop.env_with true Shop.pending_invoice)
      (<["title" := PyStr "Tea"]> Shop.kwargs) Shop.empty_world
    = (Raise e, Shop.empty_world).
Proof.
  apply (C10_get_payment_url_needs_ascii_bytes _ _ _ "title" (PyStr "Tea")).
  - simpl. auto.
  - vm_compute. reflexivity.
  - reflexivity.
Defined.

(** C6: [get_payment_url] inserts an Integration Request exactly when the
    provider creates the invoice.  If the call to the provider fails, the
    caller gets a validation error and the table is untouched; if it
    succeeds, the caller gets the invoice URL and the table gains one
    request, of status [Pending], stored under the external id of the
    response (the token, when the provider echoes the one it was given) and
    holding the response, invoice id included, as its output; and when no
    call is made at all, the caller gets an error and nothing is stored. *)
Theorem C6_token_persisted_iff_invoice_created (env : Env) (kwargs : gmap string pyval)
    (w : World) (r : result string) (w' : World) :
  XenditSettings.get_payment_url env kwargs w = (r, w') ->
  (provider_calls w' = provider_calls w /\ is_ok r = false
   /\ integration_requests w' = integration_requests w)
  \/ exists args,
       provider_calls w' = (provider_calls w ++ [CreateInvoice args])%list
       /\ kwargs !! "reference_docname" = Some (PyStr (external_id args))
       /\ match Invoice_create env args with
          | None =>
              r = Raise (ValidationError create_failed)
              /\ integration_requests w' = integration_requests w
          | Some inv =>
              r = Ok (inv_invoice_url inv)
              /\ exists doc,
                   integration_requests w'
                     = <[inv_external_id inv := doc]> (integration_requests w)
                   /\ integration_requests w' !! inv_external_id inv = Some doc
                   /\ (forall k, k <> inv_external_id inv ->
                         integration_requests w' !! k = integration_requests w !! k)
                   /\ (inv_external_id inv = external_id args ->
                         integration_requests w' !! external_id args = Some doc)
                   /\ ir_status doc = Pending
                   /\ ir_output doc = Some (invoice_json inv)
                   /\ stored_invoice_id doc = Ok (JStr (inv_id inv))
          end.
Proof.
  intros Hrun. generalize (get_payment_url_outcome env kwargs w). rewrite Hrun.
  inversion 1 as [e|args Hargs Hnone|args inv data Hargs Hsome]; subst.
  - left. auto.
  - right. exists args. simpl. rewrite Hnone.
    split; [reflexivity|]. split; [apply Hargs|]. auto.
  - right. exists args. simpl. rewrite Hsome.
    split; [reflexivity|]. split; [apply Hargs|]. split; [reflexivity|].
    exists (new_request data inv). split; [reflexivity|].
    split; [apply lookup_insert_eq|].
    split; [intros k Hk; now apply lookup_insert_ne|].
    split; [intros <-; apply lookup_insert_eq|].
    repeat split.
Qed.

Lemma C6_witness :
  let run := XenditSettings.get_payment_url (Shop.env_with true Shop.pending_invoice)
               Shop.kwargs Shop.empty_world in
  fst run = Ok "https://checkout.example/inv-1"
  /\ ir_status <$> (integration_requests (snd run) !! "PR-1") = Some Pending.
Proof.
  set (env := Shop.env_with true Shop.pending_invoice).
  destruct (XenditSettings.get_payment_url env Shop.kwargs Shop.empty_world)
    as [r w'] eqn:Hrun.
  assert (Hcalls : exists args, provider_calls w' = [CreateInvoice args]).
  { vm_compute in Hrun. injection Hrun as <- <-. eexists. reflexivity. }
  destruct (C6_token_persisted_iff_invoice_created env Shop.kwargs Shop.empty_world r w' Hrun)
    as [[Hnone _]|[args [_ [_ Hcase]]]].
  - destruct Hcalls as [args Hargs]. rewrite Hargs in Hnone. discriminate.
  - simpl in Hcase. destruct Hcase as [-> [doc [_ [Hdoc [_ [_ [Hst _]]]]]]].
    simpl. split; [reflexivity|]. simpl in Hdoc. rewrite Hdoc. simpl. now rewrite Hst.
Defined.

(** ** The redirect builder *)

(** C5 (as the code has it): a truthy target returned by the hook replaces
    the document's own [redirect_to] hint, not the page the redirect goes
    to; the hints that are present are appended to that page as
    [&name=value] with the value form-encoded by [quote_plus], so that it
    holds only unreserved characters, [%] and [+].  The target
    [thanks?id=7] with the message [hi there] gives
    [&redirect_to=thanks%3Fid%3D7&redirect_message=hi+there]. *)
Theorem C5_setup_redirect_appends_encoded_hints (env : Env) (data : IntegrationRequest)
    (url : string) (custom : option string) (w : World) :
  setup_redirect env data url custom true w =
    (Ok tt,
     set_response "location"
       (get_url env (url +:+ query_param "redirect_to" (effective_redirect_to data custom)
                        +:+ query_param "redirect_message" (or_None (redirect_message data))))
       (set_response "type" "redirect" w))
  /\ (forall c, custom = Some c -> c <> "" -> effective_redirect_to data custom = Some c)
  /\ (forall v, Urllib.all_chars Urllib.url_char (Urllib.quote_plus v) = true)
  /\ (custom = Some "thanks?id=7" ->
      redirect_message data = Some "hi there" ->
      response (snd (setup_redirect env data url custom true w)) !! "location"
      = Some (get_url env (url +:+ "&redirect_to=thanks%3Fid%3D7&redirect_message=hi+there"))).
Proof.
  split; [apply setup_redirect_location|].
  split.
  { intros c -> Hc. unfold effective_redirect_to. simpl.
    destruct c; [now elim Hc|reflexivity]. }
  split; [apply quote_plus_chars|].
  intros -> Hmsg. rewrite setup_redirect_location. simpl.
  rewrite lookup_insert_eq. unfold effective_redirect_to. rewrite Hmsg. reflexivity.
Qed.

Lemma C5_witness :
  response (snd (setup_redirect (Shop.env_with true Shop.paid_invoice)
                   (Shop.request_with_message "hi there") "payment-success"
                   (Some "thanks?id=7") true Shop.empty_world)) !! "location"
  = Some "https://shop.example/payment-success&redirect_to=thanks%3Fid%3D7&redirect_message=hi+there".
Proof.
  apply (C5_setup_redirect_appends_encoded_hints (Shop.env_with true Shop.paid_invoice)
           (Shop.request_with_message "hi there") "payment-success"
           (Some "thanks?id=7") Shop.empty_world); reflexivity.
Defined.

(** The claim as the specification has it fails: with the target
    [thanks?id=7] and the message [hi there] the URL does not end in
    [thanks?id=7&redirect_message=hi%20there]; the page stays
    [payment-success] and the space is sent as [+]. *)
Lemma C5_counterexample :
  let w' := snd (setup_redirect (Shop.env_with true Shop.paid_invoice)
                   (Shop.request_with_message "hi there") "payment-success"
                   (Some "thanks?id=7") true Shop.empty_world) in
  exists location,
    response w' !! "location" = Some location
    /\ Urllib.ends_with "thanks?id=7&redirect_message=hi%20there" location = false
    /\ String.prefix "https://shop.example/payment-success" location = true.
Proof. eexists. vm_compute. repeat split. Qed.

(** ** Confirmation *)

Lemma with_status_stored_invoice_id (st : Status) (d : IntegrationRequest) :
  stored_invoice_id (with_status st d) = stored_invoice_id d.
Proof. reflexivity. Qed.

(** One confirmation that sees PAID, whatever the stored status: the
    request becomes Completed, the hook is called once more, and the
    browser is sent to the success page. *)
Lemma confirm_payment_paid_step (env : Env) (token : string) (w : World)
    (d : IntegrationRequest) (invoice_id : json) (invoice : Invoice) (c : option string) :
  integration_requests w !! token = Some d ->
  stored_invoice_id d = Ok invoice_id ->
  Invoice_get env invoice_id = Some invoice ->
  inv_status invoice = "PAID" ->
  reference_doc_exists env (reference_doctype d) (reference_docname d) = true ->
  on_payment_authorized env (reference_doctype d) (reference_docname d) = Ok c ->
  let w' := snd (confirm_payment env token w) in
  fst (confirm_payment env token w) = Ok tt
  /\ integration_requests w' = <[token := with_status Completed d]> (integration_requests w)
  /\ notifications w'
     = (notifications w ++ [(reference_doctype d, reference_docname d, "Completed")])%list
  /\ error_log w' = error_log w
  /\ response w' !! "type" = Some "redirect"
  /\ exists target,
       response w' !! "location" = Some (get_url env target)
       /\ String.prefix (success_url d) target = true.
Proof.
  intros Hdoc Hid Hget Hpaid Hex Hhook.
  rewrite (confirm_payment_paid env token w d Hdoc invoice_id Hid invoice Hget Hpaid Hex c Hhook).
  rewrite setup_redirect_location. simpl.
  repeat (split; [reflexivity|]).
  split; [now rewrite lookup_insert_ne, lookup_insert_eq by discriminate|].
  eexists. split; [apply lookup_insert_eq|apply prefix_append].
Qed.

(** C1 (as the code has it): every confirmation that sees PAID calls the
    payment-authorized hook, whatever the stored status is; two
    confirmations in a row call it twice.  Each of them leaves the request
    Completed and sends the browser to the success page. *)
Theorem C1_confirm_paid_notifies_on_every_call (env : Env) (token : string) (w : World)
    (d : IntegrationRequest) (invoice_id : json) (invoice : Invoice) (c : option string) :
  integration_requests w !! token = Some d ->
  stored_invoice_id d = Ok invoice_id ->
  Invoice_get env invoice_id = Some invoice ->
  inv_status invoice = "PAID" ->
  reference_doc_exists env (reference_doctype d) (reference_docname d) = true ->
  on_payment_authorized env (reference_doctype d) (reference_docname d) = Ok c ->
  let w1 := snd (confirm_payment env token w) in
  let w2 := snd (confirm_payment env token w1) in
  let call := (reference_doctype d, reference_docname d, "Completed") in
  fst (confirm_payment env token w) = Ok tt
  /\ fst (confirm_payment env token w1) = Ok tt
  /\ ir_status <$> (integration_requests w1 !! token) = Some Completed
  /\ ir_status <$> (integration_requests w2 !! token) = Some Completed
  /\ notifications w1 = (notifications w ++ [call])%list
  /\ notifications w2 = (notifications w ++ [call; call])%list
  /\ (exists target,
        response w1 !! "location" = Some (get_url env target)
        /\ String.prefix (success_url d) target = true)
  /\ (exists target,
        response w2 !! "location" = Some (get_url env target)
        /\ String.prefix (success_url d) target = true).
Proof.
  intros Hdoc Hid Hget Hpaid Hex Hhook w1 w2 call.
  destruct (confirm_payment_paid_step env token w d invoice_id invoice c
              Hdoc Hid Hget Hpaid Hex Hhook)
    as [Hok1 [Hreq1 [Hnote1 [_ [_ Hloc1]]]]].
  fold w1 in Hreq1, Hnote1, Hloc1.
  assert (Hdoc1 : integration_requests w1 !! token = Some (with_status Completed d))
    by (rewrite Hreq1; apply lookup_insert_eq).
  destruct (confirm_payment_paid_step env token w1 (with_status Completed d)
              invoice_id invoice c Hdoc1 Hid Hget Hpaid Hex Hhook)
    as [Hok2 [Hreq2 [Hnote2 [_ [_ Hloc2]]]]].
  fold w2 in Hreq2, Hnote2, Hloc2.
  split; [exact Hok1|]. split; [exact Hok2|].
  split; [now rewrite Hdoc1|].
  split; [now rewrite Hreq2, lookup_insert_eq|].
  split; [exact Hnote1|].
  split; [rewrite Hnote2, Hnote1, <- app_assoc; reflexivity|].
  split; [exact Hloc1|exact Hloc2].
Qed.

Lemma C1_witness :
  let env := Shop.env_with true Shop.paid_invoice in
  let w1 := snd (confirm_payment env "PR-1" (Shop.world_with Completed)) in
  let w2 := snd (confirm_payment env "PR-1" w1) in
  let call := (Some "Payment Request", Some "PR-1", "Completed") in
  fst (confirm_payment env "PR-1" (Shop.world_with Completed)) = Ok tt
  /\ fst (confirm_payment env "PR-1" w1) = Ok tt
  /\ ir_status <$> (integration_requests w1 !! "PR-1") = Some Completed
  /\ ir_status <$> (integration_requests w2 !! "PR-1") = Some Completed
  /\ notifications w1 = (notifications (Shop.world_with Completed) ++ [call])%list
  /\ notifications w2 = (notifications (Shop.world_with Completed) ++ [call; call])%list
  /\ (exists target,
        response w1 !! "location" = Some (Shop.site_url target)
        /\ String.prefix "payment-success?doctype=Payment Request&docname=PR-1" target = true)
  /\ (exists target,
        response w2 !! "location" = Some (Shop.site_url target)
        /\ String.prefix "payment-success?doctype=Payment Request&docname=PR-1" target = true).
Proof.
  apply (C1_confirm_paid_notifies_on_every_call (Shop.env_with true Shop.paid_invoice)
           "PR-1" (Shop.world_with Completed) (Shop.request Completed)
           (JStr "inv-1") Shop.paid_invoice None);
    vm_compute; reflexivity.
Defined.

(** The claim as the specification has it fails: the request is already
    Completed, the provider says PAID again, and the hook is called
    again. *)
Lemma C1_counterexample :
  let env := Shop.env_with true Shop.paid_invoice in
  let w := Shop.world_with Completed in
  let w' := snd (confirm_payment env "PR-1" w) in
  ir_status <$> (integration_requests w !! "PR-1") = Some Completed
  /\ inv_status <$> fetched_invoice env (Shop.request Completed) = Some "PAID"
  /\ notifications w = []
  /\ notifications w' = [(Some "Payment Request", Some "PR-1", "Completed")]
  /\ notifications w' <> notifications w.
Proof. vm_compute. repeat split. discriminate. Qed.

(** C2 (as the code has it): when the token is unknown, or when the stored
    output has no invoice id, or when the provider call fails,
    [confirm_payment] raises the validation error of [frappe.throw] to its
    caller; nothing is logged, no redirect is set, no hook is called and
    the table of requests is left as it was. *)
Theorem C2_confirm_fetch_failure_raises (env : Env) (token : string) (w : World) :
  (integration_requests w !! token = None
   \/ exists d, integration_requests w !! token = Some d /\ fetched_invoice env d = None) ->
  let w' := snd (confirm_payment env token w) in
  fst (confirm_payment env token w) = Raise (ValidationError fetch_failed)
  /\ integration_requests w' = integration_requests w
  /\ error_log w' = error_log w
  /\ response w' = response w
  /\ notifications w' = notifications w.
Proof.
  intros [Hnone|[d [Hdoc Hfetch]]].
  - now rewrite confirm_payment_unknown.
  - unfold fetched_invoice in Hfetch.
    destruct (stored_invoice_id d) as [invoice_id|e] eqn:Hid.
    + now rewrite (confirm_payment_provider_down env token w d Hdoc invoice_id Hid Hfetch).
    + now rewrite (confirm_payment_no_id env token w d Hdoc e Hid).
Qed.

Lemma C2_witness :
  let env := Shop.env_with false Shop.paid_invoice in
  let w := Shop.world_with Pending in
  let w' := snd (confirm_payment env "PR-1" w) in
  fst (confirm_payment env "PR-1" w) = Raise (ValidationError fetch_failed)
  /\ integration_requests w' = integration_requests w
  /\ error_log w' = error_log w
  /\ response w' = response w
  /\ notifications w' = notifications w.
Proof.
  apply (C2_confirm_fetch_failure_raises (Shop.env_with false Shop.paid_invoice)
           "PR-1" (Shop.world_with Pending)).
  right. exists (Shop.request Pending). split; vm_compute; reflexivity.
Defined.

(** The claim as the specification has it fails: for a token that was
    never issued the call raises to its caller, logs nothing and sets no
    redirect; and so it does when the provider is down. *)
Lemma C2_counterexample :
  let up := Shop.env_with true Shop.paid_invoice in
  let down := Shop.env_with false Shop.paid_invoice in
  let w := Shop.world_with Pending in
  confirm_payment up "PR-404" w = (Raise (ValidationError fetch_failed), w)
  /\ error_log w = []
  /\ response w !! "location" = None
  /\ fst (confirm_payment down "PR-1" w) = Raise (ValidationError fetch_failed)
  /\ error_log (snd (confirm_payment down "PR-1" w)) = []
  /\ response (snd (confirm_payment down "PR-1" w)) !! "location" = None.
Proof. vm_compute. repeat split. Qed.

Lemma fetched_invoice_inv (env : Env) (d : IntegrationRequest) (invoice : Invoice) :
  fetched_invoice env d = Some invoice ->
  exists invoice_id,
    stored_invoice_id d = Ok invoice_id /\ Invoice_get env invoice_id = Some invoice.
Proof.
  unfold fetched_invoice. destruct (stored_invoice_id d) as [i|e]; [eauto|discriminate].
Qed.

(** C4 (as the code has it): when the provider reports anything but PAID,
    [confirm_payment] returns to its caller without raising, calls no
    hook, and leaves the table of requests as it was: the stored status is
    not changed, a Pending request stays Pending. *)
Theorem C4_confirm_unpaid_leaves_status (env : Env) (token : string) (w : World)
    (d : IntegrationRequest) (invoice : Invoice) :
  integration_requests w !! token = Some d ->
  fetched_invoice env d = Some invoice ->
  inv_status invoice <> "PAID" ->
  let w' := snd (confirm_payment env token w) in
  fst (confirm_payment env token w) = Ok tt
  /\ integration_requests w' = integration_requests w
  /\ ir_status <$> (integration_requests w' !! token) = Some (ir_status d)
  /\ notifications w' = notifications w.
Proof.
  intros Hdoc Hfetch Hnot.
  destruct (fetched_invoice_inv env d invoice Hfetch) as [invoice_id [Hid Hget]].
  rewrite (confirm_payment_not_paid env token w d Hdoc invoice_id Hid invoice Hget Hnot).
  simpl. now rewrite Hdoc.
Qed.

Lemma C4_witness :
  let env := Shop.env_with true Shop.pending_invoice in
  let w := Shop.world_with Pending in
  let w' := snd (confirm_payment env "PR-1" w) in
  fst (confirm_payment env "PR-1" w) = Ok tt
  /\ integration_requests w' = integration_requests w
  /\ ir_status <$> (integration_requests w' !! "PR-1") = Some Pending
  /\ notifications w' = notifications w.
Proof.
  apply (C4_confirm_unpaid_leaves_status (Shop.env_with true Shop.pending_invoice)
           "PR-1" (Shop.world_with Pending) (Shop.request Pending) Shop.pending_invoice).
  - vm_compute. reflexivity.
  - vm_compute. reflexivity.
  - discriminate.
Defined.

(** The claim as the specification has it fails: the request is Pending,
    the provider says PENDING, and after the confirmation the request is
    still Pending, not Failed. *)
Lemma C4_counterexample :
  let env := Shop.env_with true Shop.pending_invoice in
  let w := Shop.world_with Pending in
  let w' := snd (confirm_payment env "PR-1" w) in
  ir_status <$> (integration_requests w !! "PR-1") = Some Pending
  /\ inv_status <$> fetched_invoice env (Shop.request Pending) = Some "PENDING"
  /\ ir_status <$> (integration_requests w' !! "PR-1") = Some Pending
  /\ ir_status <$> (integration_requests w' !! "PR-1") <> Some Failed.
Proof. vm_compute. repeat split. discriminate. Qed.

(** C9: when the provider reports anything but PAID, [custom_redirect_to]
    is read before it was ever assigned; the unbound-variable error is
    caught and logged, the call returns, and the response is left as it
    was: no redirect is set. *)
Theorem C9_unpaid_reads_unbound_local (env : Env) (token : string) (w : World)
    (d : IntegrationRequest) (invoice : Invoice) :
  integration_requests w !! token = Some d ->
  fetched_invoice env d = Some invoice ->
  inv_status invoice <> "PAID" ->
  let w' := snd (confirm_payment env token w) in
  fst (confirm_payment env token w) = Ok tt
  /\ error_log w' = (error_log w ++ [UnboundLocalError "custom_redirect_to"])%list
  /\ response w' = response w.
Proof.
  intros Hdoc Hfetch Hnot.
  destruct (fetched_invoice_inv env d invoice Hfetch) as [invoice_id [Hid Hget]].
  now rewrite (confirm_payment_not_paid env token w d Hdoc invoice_id Hid invoice Hget Hnot).
Qed.

Lemma C9_witness :
  let env := Shop.env_with true Shop.pending_invoice in
  let w := Shop.world_with Pending in
  let w' := snd (confirm_payment env "PR-1" w) in
  fst (confirm_payment env "PR-1" w) = Ok tt
  /\ error_log w' = (error_log w ++ [UnboundLocalError "custom_redirect_to"])%list
  /\ response w' = response w.
Proof.
  apply (C9_unpaid_reads_unbound_local (Shop.env_with true Shop.pending_invoice)
           "PR-1" (Shop.world_with Pending) (Shop.request Pending) Shop.pending_invoice).
  - vm_compute. reflexivity.
  - vm_compute. reflexivity.
  - discriminate.
Defined.

(** * Further properties of the module *)

(** ** Confirmation as a whole *)

Lemma confirm_payment_outcome (env : Env) (token : string) (w : World) :
  confirm_outcome env token w (confirm_payment env token w).
Proof.
  destruct (integration_requests w !! token) as [d|] eqn:Hdoc.
  2: { rewrite confirm_payment_unknown by exact Hdoc. apply confirm_not_fetched. now left. }
  destruct (stored_invoice_id d) as [invoice_id|e] eqn:Hid.
  2: { rewrite (confirm_payment_no_id env token w d Hdoc e Hid).
       apply confirm_not_fetched. right. eauto. }
  destruct (Invoice_get env invoice_id) as [invoice|] eqn:Hget.
  2: { rewrite (confirm_payment_provider_down env token w d Hdoc invoice_id Hid Hget).
       now apply (confirm_provider_down env token w d). }
  destruct (string_dec (inv_status invoice) "PAID") as [Hpaid|Hnot].
  2: { rewrite (confirm_payment_not_paid env token w d Hdoc invoice_id Hid invoice Hget Hnot).
       now apply (confirm_unpaid env token w d invoice_id invoice). }
  destruct (reference_doc_exists env (reference_doctype d) (reference_docname d)) eqn:Hex.
  2: { rewrite (confirm_payment_reference_missing env token w d Hdoc invoice_id Hid
                  invoice Hget Hpaid Hex).
       now apply (confirm_paid_unnotified env token w d invoice_id invoice). }
  destruct (on_payment_authorized env (reference_doctype d) (reference_docname d))
    as [c|e] eqn:Hhook.
  - rewrite (confirm_payment_paid env token w d Hdoc invoice_id Hid invoice Hget Hpaid
               Hex c Hhook), setup_redirect_location.
    now apply (confirm_paid_redirected env token w d invoice_id invoice).
  - rewrite (confirm_payment_hook_raises env token w d Hdoc invoice_id Hid invoice Hget
               Hpaid Hex e Hhook).
    now apply (confirm_paid_hook_raised env token w d invoice_id invoice).
Qed.

(** X1: whatever the token, the table, the provider and the hook do,
    [confirm_payment] either returns or raises the one validation error of
    its first block; no other exception leaves it. *)
Theorem confirm_payment_raises_only_fetch_failed (env : Env) (token : string) (w : World) :
  fst (confirm_payment env token w) = Ok tt
  \/ fst (confirm_payment env token w) = Raise (ValidationError fetch_failed).
Proof.
  destruct (confirm_payment_outcome env token w); simpl; auto.
Qed.

Lemma confirm_payment_frame (env : Env) (token : string) (w : World) :
  let w' := snd (confirm_payment env token w) in
  (forall k, k <> token -> integration_requests w' !! k = integration_requests w !! k)
  /\ (integration_requests w' !! token = integration_requests w !! token
      \/ exists d,
           integration_requests w !! token = Some d
           /\ integration_requests w' !! token = Some (with_status Completed d))
  /\ dom (integration_requests w') = dom (integration_requests w).
Proof.
  assert (Hpaid : forall d,
             integration_requests w !! token = Some d ->
             let t := <[token := with_status Completed d]> (integration_requests w) in
             (forall k, k <> token -> t !! k = integration_requests w !! k)
             /\ (t !! token = integration_requests w !! token
                 \/ exists d0, integration_requests w !! token = Some d0
                               /\ t !! token = Some (with_status Completed d0))
             /\ dom t = dom (integration_requests w)).
  { intros d Hdoc. simpl. split; [|split].
    - intros k Hk. now apply lookup_insert_ne.
    - right. exists d. split; [exact Hdoc|apply lookup_insert_eq].
    - apply dom_insert_lookup_L. now rewrite Hdoc. }
  cbv zeta.
  destruct (confirm_payment_outcome env token w) as
    [?|d ? ? ? ?|d ? ? ? ? ? ?|d ? ? ? Hdoc ? ? ? ?|d ? ? ? Hdoc ? ? ? ? ?|d ? ? ? Hdoc ? ? ? ? ?];
    simpl;
    try (split; [reflexivity|split; [left; reflexivity|reflexivity]]);
    apply (Hpaid d Hdoc).
Qed.

(** X2: a confirmation touches no other request, and the request of its
    token is either left as it was or is the old one with its status set to
    Completed: every other field is kept and no request is added or
    removed. *)
Theorem confirm_payment_table_frame (env : Env) (token : string) (w : World) :
  let w' := snd (confirm_payment env token w) in
  (forall k, k <> token -> integration_requests w' !! k = integration_requests w !! k)
  /\ (integration_requests w' !! token = integration_requests w !! token
      \/ exists d,
           integration_requests w !! token = Some d
           /\ integration_requests w' !! token = Some (with_status Completed d))
  /\ dom (integration_requests w') = dom (integration_requests w).
Proof. exact (confirm_payment_frame env token w). Qed.

(** X3: once a request is Completed, no confirmation takes it out of
    Completed, whatever the provider answers afterwards. *)
Theorem confirm_payment_keeps_completed (env : Env) (token : string) (w : World) :
  ir_status <$> (integration_requests w !! token) = Some Completed ->
  ir_status <$> (integration_requests (snd (confirm_payment env token w)) !! token)
  = Some Completed.
Proof.
  intros Hdone.
  destruct (confirm_payment_frame env token w) as [_ [[Hsame|[d [_ Hnew]]] _]].
  - now rewrite Hsame.
  - now rewrite Hnew.
Qed.

Lemma confirm_payment_keeps_completed_witness :
  ir_status <$> (integration_requests
                   (snd (confirm_payment (Shop.env_with true Shop.pending_invoice) "PR-1"
                           (Shop.world_with Completed))) !! "PR-1")
  = Some Completed.
Proof.
  apply (confirm_payment_keeps_completed (Shop.env_with true Shop.pending_invoice) "PR-1"
           (Shop.world_with Completed)).
  vm_compute. reflexivity.
Defined.

(** X4: a confirmation makes at most one provider call, and that call
    fetches the invoice whose id is stored in the request of the token; it
    never creates an invoice, and it calls nothing for an unknown token. *)
Theorem confirm_payment_provider_calls (env : Env) (token : string) (w : World) :
  let w' := snd (confirm_payment env token w) in
  (provider_calls w' = provider_calls w
   \/ exists d invoice_id,
        integration_requests w !! token = Some d
        /\ stored_invoice_id d = Ok invoice_id
        /\ provider_calls w' = (provider_calls w ++ [GetInvoice invoice_id])%list)
  /\ (integration_requests w !! token = None -> provider_calls w' = provider_calls w).
Proof.
  split.
  - destruct (confirm_payment_outcome env token w); simpl; eauto 6.
  - intros Hnone. now rewrite confirm_payment_unknown.
Qed.

(** X5: the three ways a confirmation ends.  It raises, with the error log
    and the response untouched; or it returns having logged exactly one
    error and set no redirect; or it returns having logged nothing and set
    the redirect to the success page of the reference document.  The
    failure page never reaches the response. *)
Theorem confirm_payment_ends (env : Env) (token : string) (w : World) :
  let r := fst (confirm_payment env token w) in
  let w' := snd (confirm_payment env token w) in
  (r = Raise (ValidationError fetch_failed)
   /\ error_log w' = error_log w /\ response w' = response w)
  \/ (r = Ok tt
      /\ (exists e, error_log w' = (error_log w ++ [e])%list)
      /\ response w' = response w)
  \/ (r = Ok tt
      /\ error_log w' = error_log w
      /\ exists d target,
           integration_requests w !! token = Some d
           /\ String.prefix (success_url d) target = true
           /\ response w'
              = <["location" := get_url env target]> (<["type" := "redirect"]> (response w))).
Proof.
  destruct (confirm_payment_outcome env token w); simpl; eauto 7.
  right. right. split; [reflexivity|]. split; [reflexivity|].
  eexists _, _. split; [eassumption|]. split; [apply prefix_append|reflexivity].
Qed.

(** X6: when the provider says PAID but the reference document is missing
    or its hook raises, the request is Completed all the same; the call
    returns, the error is logged and no redirect is set. *)
Theorem confirm_payment_completes_before_hook (env : Env) (token : string) (w : World)
    (d : IntegrationRequest) (invoice : Invoice) :
  integration_requests w !! token = Some d ->
  fetched_invoice env d = Some invoice ->
  inv_status invoice = "PAID" ->
  (reference_doc_exists env (reference_doctype d) (reference_docname d) = false
   \/ is_ok (on_payment_authorized env (reference_doctype d) (reference_docname d)) = false) ->
  let w' := snd (confirm_payment env token w) in
  fst (confirm_payment env token w) = Ok tt
  /\ integration_requests w' !! token = Some (with_status Completed d)
  /\ (exists e, error_log w' = (error_log w ++ [e])%list)
  /\ response w' = response w.
Proof.
  intros Hdoc Hfetch Hpaid Hfail.
  destruct (fetched_invoice_inv env d invoice Hfetch) as [invoice_id [Hid Hget]].
  destruct (reference_doc_exists env (reference_doctype d) (reference_docname d)) eqn:Hex.
  - destruct Hfail as [Hfalse|Hhook]; [discriminate|].
    destruct (on_payment_authorized env (reference_doctype d) (reference_docname d))
      as [c|e] eqn:Hrun; [discriminate|].
    rewrite (confirm_payment_hook_raises env token w d Hdoc invoice_id Hid invoice Hget
               Hpaid Hex e Hrun).
    simpl. rewrite lookup_insert_eq. eauto.
  - rewrite (confirm_payment_reference_missing env token w d Hdoc invoice_id Hid invoice
               Hget Hpaid Hex).
    simpl. rewrite lookup_insert_eq. eauto.
Qed.

Lemma confirm_payment_completes_before_hook_witness :
  let env := Shop.env_hook true (Raise HookError) in
  let w := Shop.world_with Pending in
  let w' := snd (confirm_payment env "PR-1" w) in
  fst (confirm_payment env "PR-1" w) = Ok tt
  /\ integration_requests w' !! "PR-1" = Some (with_status Completed (Shop.request Pending))
  /\ (exists e, error_log w' = (error_log w ++ [e])%list)
  /\ response w' = response w.
Proof.
  apply (confirm_payment_completes_before_hook (Shop.env_hook true (Raise HookError))
           "PR-1" (Shop.world_with Pending) (Shop.request Pending) Shop.paid_invoice).
  - vm_compute. reflexivity.
  - vm_compute. reflexivity.
  - reflexivity.
  - right. reflexivity.
Defined.

(** ** The redirect builder, further *)

(** X7: [setup_redirect] never fails and writes nothing but the two keys
    [type] and [location] of the response; with [redirect] false it writes
    nothing at all. *)
Theorem setup_redirect_frame (env : Env) (data : IntegrationRequest) (url : string)
    (custom : option string) (redirect : bool) (w : World) :
  let w' := snd (setup_redirect env data url custom redirect w) in
  fst (setup_redirect env data url custom redirect w) = Ok tt
  /\ integration_requests w' = integration_requests w
  /\ provider_calls w' = provider_calls w
  /\ notifications w' = notifications w
  /\ error_log w' = error_log w
  /\ (forall k, k <> "type" -> k <> "location" -> response w' !! k = response w !! k)
  /\ (redirect = false -> w' = w).
Proof.
  destruct redirect.
  - rewrite setup_redirect_location. simpl. repeat (split; [reflexivity|]).
    split; [|discriminate].
    intros k Htype Hloc. now rewrite !lookup_insert_ne by congruence.
  - unfold setup_redirect. simpl. repeat (split; [reflexivity|]). split; reflexivity.
Qed.

(** X8: hints that are absent or empty are dropped.  When the hook gives no
    target or an empty one and the document's two hints are absent or
    empty, the browser is sent to the bare page; and an empty target from
    the hook does not displace the document's own [redirect_to]. *)
Theorem setup_redirect_drops_empty_hints (env : Env) (data : IntegrationRequest)
    (url : string) (custom : option string) (w : World) :
  custom = None \/ custom = Some "" ->
  redirect_message data = None \/ redirect_message data = Some "" ->
  let location :=
    response (snd (setup_redirect env data url custom true w)) !! "location" in
  (redirect_to data = None \/ redirect_to data = Some "" ->
   location = Some (get_url env url))
  /\ (forall r, redirect_to data = Some r -> r <> "" ->
      location = Some (get_url env (url +:+ "&redirect_to=" +:+ Urllib.quote_plus r))).
Proof.
  intros Hcustom Hmsg. cbv zeta. rewrite setup_redirect_location. simpl.
  rewrite lookup_insert_eq.
  assert (Hc : or_None custom = None) by (destruct Hcustom as [-> | ->]; reflexivity).
  assert (Hm : or_None (redirect_message data) = None)
    by (destruct Hmsg as [-> | ->]; reflexivity).
  unfold effective_redirect_to. rewrite Hc, Hm. simpl. split.
  - intros Hr.
    assert (Hr' : or_None (redirect_to data) = None)
      by (destruct Hr as [-> | ->]; reflexivity).
    rewrite Hr'. simpl. now rewrite !string_append_nil_r.
  - intros r Hr Hne. rewrite Hr.
    destruct r as [|x r]; [now elim Hne|]. simpl.
    now rewrite string_append_nil_r.
Qed.

Lemma setup_redirect_drops_empty_hints_witness :
  response (snd (setup_redirect (Shop.env_with true Shop.paid_invoice)
                   (Shop.request_with_message "") "payment-success" (Some "") true
                   Shop.empty_world)) !! "location"
  = Some "https://shop.example/payment-success".
Proof.
  apply (setup_redirect_drops_empty_hints (Shop.env_with true Shop.paid_invoice)
           (Shop.request_with_message "") "payment-success" (Some "") Shop.empty_world).
  - right. reflexivity.
  - right. reflexivity.
  - left. reflexivity.
Defined.

(** ** Checkout, further *)

Lemma build_items_eq (env : Env) (l : list SalesOrderItem) (w : World) :
  XenditSettings.build_items env l w =
    (if forallb (item_exists env) l then Ok (map item_line l)
     else Raise (DoesNotExistError "Item"), w).
Proof.
  induction l as [|item rest IH]; simpl; [reflexivity|].
  unfold item_exists at 1. destruct (decide (item_code item ∈ item_names env)) as [Hin|Hnin].
  - rewrite bool_decide_eq_true_2 by exact Hin. simpl. run. rewrite IH.
    destruct (forallb (item_exists env) rest); reflexivity.
  - rewrite bool_decide_eq_false_2 by exact Hnin. reflexivity.
Qed.

(** X10: the loop over the items of the sales order gives one invoice line
    per item, in order, with the item's code, rate and quantity, when every
    item exists; it raises as soon as one does not; and it changes
    nothing. *)
Theorem build_items_mirrors_order (env : Env) (l : list SalesOrderItem) (w : World) :
  XenditSettings.build_items env l w =
    (if forallb (item_exists env) l then Ok (map item_line l)
     else Raise (DoesNotExistError "Item"), w).
Proof. exact (build_items_eq env l w). Qed.

(** Every run of [execute_set_express_checkout] either stops without a
    provider call or makes the one call whose arguments are described by
    [checkout_details]. *)
Lemma execute_set_express_checkout_walk (env : Env) (kwargs : gmap string pyval)
    (w : World) :
  (exists e,
     XenditSettings.execute_set_express_checkout env kwargs w = (Raise e, w)
     /\ (e = ValidationError create_failed ->
         kwargs !! "description" = None \/ kwargs !! "amount" = None))
  \/ exists args pr so,
       checkout_details env kwargs args pr so
       /\ XenditSettings.execute_set_express_checkout env kwargs w
          = (match Invoice_create env args with
             | Some inv => Ok inv
             | None => Raise (ValidationError create_failed)
             end,
             add_provider_call (CreateInvoice args) w).
Proof.
  unfold XenditSettings.execute_set_express_checkout. run.
  unfold getitem.
  destruct (kwargs !! "reference_docname") as [[|n| | |]|] eqn:Hname;
    try (left; eexists; split; [reflexivity|discriminate]).
  simpl.
  destruct (payment_requests env !! n) as [pr|] eqn:Hpr;
    [|left; eexists; split; [reflexivity|discriminate]].
  destruct (sales_orders env !! reference_name pr) as [so|] eqn:Hso;
    [|left; eexists; split; [reflexivity|discriminate]].
  rewrite build_items_eq.
  destruct (forallb (item_exists env) (so_items so)) eqn:Hitems;
    [|left; eexists; split; [reflexivity|discriminate]].
  destruct (kwargs !! "payer_name") as [payer_name|] eqn:Hpn;
    [|left; eexists; split; [reflexivity|discriminate]].
  destruct (kwargs !! "payer_email") as [payer_email|] eqn:Hpe;
    [|left; eexists; split; [reflexivity|discriminate]].
  destruct (customer_mobile_no env !! so_customer so) as [mobile|] eqn:Hmob;
    [|left; eexists; split; [reflexivity|discriminate]].
  destruct (Fee.gateway_fee (grand_total pr)) as [value|e] eqn:Hfee; simpl.
  2: { left. eexists. split; [reflexivity|].
       intros ->. unfold Fee.gateway_fee in Hfee.
       destruct (Fee.int_of_float _) as [k|e'] eqn:Hint; [discriminate|].
       injection Hfee as ->. unfold Fee.int_of_float in Hint.
       destruct (Prim2SF _); discriminate. }
  destruct (kwargs !! "description") as [description|] eqn:Hdesc;
    [|left; eexists; split; [reflexivity|auto]].
  destruct (kwargs !! "amount") as [amount|] eqn:Hamt;
    [|left; eexists; split; [reflexivity|auto]].
  right. unfold provider_create.
  match goal with
  | |- context [Invoice_create env ?a] => exists a, pr, so
  end.
  split.
  - split; simpl; eauto.
  - destruct (Invoice_create env _); reflexivity.
Qed.

Lemma execute_call_details (env : Env) (kwargs : gmap string pyval) (w : World)
    (args : InvoiceArgs) :
  provider_calls (snd (XenditSettings.execute_set_express_checkout env kwargs w))
    = (provider_calls w ++ [CreateInvoice args])%list ->
  exists pr so, checkout_details env kwargs args pr so.
Proof.
  intros Hcalls.
  destruct (execute_set_express_checkout_walk env kwargs w)
    as [[e [Hrun _]]|[args' [pr [so [Hdet Hrun]]]]]; rewrite Hrun in Hcalls;
    simpl in Hcalls.
  - now apply app_singleton_neq in Hcalls.
  - apply app_inv_head in Hcalls. injection Hcalls as ->. eauto.
Qed.

(** X11: every invoice the module asks the provider for has one line per
    item of the sales order behind the payment request, in order, carrying
    the item's code, rate and quantity, and all these items exist. *)
Theorem invoice_items_mirror_sales_order (env : Env) (kwargs : gmap string pyval)
    (w : World) (args : InvoiceArgs) :
  provider_calls (snd (XenditSettings.execute_set_express_checkout env kwargs w))
    = (provider_calls w ++ [CreateInvoice args])%list ->
  exists pr so,
    payment_requests env !! external_id args = Some pr
    /\ sales_orders env !! reference_name pr = Some so
    /\ items args = map item_line (so_items so)
    /\ length (items args) = length (so_items so)
    /\ Forall (fun item => item_code item ∈ item_names env) (so_items so).
Proof.
  intros Hcalls. destruct (execute_call_details env kwargs w args Hcalls) as [pr [so Hdet]].
  exists pr, so. destruct Hdet as [Hpr Hso Hitems Hexist _ _ _ _ _ _ _ _ _].
  split; [exact Hpr|]. split; [exact Hso|]. split; [exact Hitems|].
  split; [now rewrite Hitems, length_map|].
  apply Forall_forall. intros item Hin.
  rewrite forallb_forall in Hexist.
  apply list_elem_of_In in Hin. specialize (Hexist item Hin).
  unfold item_exists in Hexist. now apply bool_decide_eq_true_1 in Hexist.
Qed.

Lemma invoice_items_mirror_sales_order_witness :
  exists pr so,
    payment_requests (Shop.env_with true Shop.pending_invoice) !! "PR-1" = Some pr
    /\ sales_orders (Shop.env_with true Shop.pending_invoice) !! reference_name pr = Some so
    /\ items Shop.invoice_args = map item_line (so_items so)
    /\ length (items Shop.invoice_args) = length (so_items so)
    /\ Forall (fun item => item_code item ∈ item_names (Shop.env_with true Shop.pending_invoice))
         (so_items so).
Proof.
  apply (invoice_items_mirror_sales_order (Shop.env_with true Shop.pending_invoice)
           Shop.decoded Shop.empty_world Shop.invoice_args).
  vm_compute. reflexivity.
Defined.

(** X12: the single fee line of every invoice is of type GATEWAY and its
    value is computed from the grand total of the payment request, while
    the amount of the invoice is the amount the caller passed; the
    currency is always IDR, the invoice lasts 600 seconds and the provider
    is asked to send the e-mail. *)
Theorem invoice_fee_from_grand_total (env : Env) (kwargs : gmap string pyval)
    (w : World) (args : InvoiceArgs) :
  provider_calls (snd (XenditSettings.execute_set_express_checkout env kwargs w))
    = (provider_calls w ++ [CreateInvoice args])%list ->
  exists pr value,
    payment_requests env !! external_id args = Some pr
    /\ Fee.gateway_fee (grand_total pr) = Ok value
    /\ fees args = [{| fee_type := "GATEWAY"; fee_value := value |}]
    /\ value mod 1000 = 0
    /\ kwargs !! "amount" = Some (amount args)
    /\ currency args = "IDR"
    /\ invoice_duration args = 600
    /\ should_send_email args = true.
Proof.
  intros Hcalls. destruct (execute_call_details env kwargs w args Hcalls) as [pr [so Hdet]].
  destruct Hdet as [Hpr _ _ _ [value [Hfee Hfees]] Hamt _ _ _ _ _ [Hcur [Hdur Hmail]] _].
  exists pr, value. repeat (split; [assumption|]).
  split; [|auto].
  unfold Fee.gateway_fee in Hfee.
  destruct (Fee.int_of_float _) as [k|e]; [|discriminate].
  injection Hfee as <-.
  replace (2000 + k * 1000) with ((2 + k) * 1000) by lia.
  apply Z.mod_mul. lia.
Qed.

Lemma invoice_fee_from_grand_total_witness :
  exists pr value,
    payment_requests (Shop.env_with true Shop.pending_invoice) !! "PR-1" = Some pr
    /\ Fee.gateway_fee (grand_total pr) = Ok value
    /\ fees Shop.invoice_args = [{| fee_type := "GATEWAY"; fee_value := value |}]
    /\ value mod 1000 = 0
    /\ Shop.decoded !! "amount" = Some (amount Shop.invoice_args)
    /\ currency Shop.invoice_args = "IDR"
    /\ invoice_duration Shop.invoice_args = 600
    /\ should_send_email Shop.invoice_args = true.
Proof.
  apply (invoice_fee_from_grand_total (Shop.env_with true Shop.pending_invoice)
           Shop.decoded Shop.empty_world Shop.invoice_args).
  vm_compute. reflexivity.
Defined.

(** X13: the customer block of every invoice carries the caller's payer
    name and e-mail, the e-mail being the one sent as [payer_email], and
    the mobile number exactly when the customer record has one. *)
Theorem invoice_customer_block (env : Env) (kwargs : gmap string pyval)
    (w : World) (args : InvoiceArgs) :
  provider_calls (snd (XenditSettings.execute_set_express_checkout env kwargs w))
    = (provider_calls w ++ [CreateInvoice args])%list ->
  exists pr so,
    payment_requests env !! external_id args = Some pr
    /\ sales_orders env !! reference_name pr = Some so
    /\ kwargs !! "payer_name" = Some (given_names (customer args))
    /\ kwargs !! "payer_email" = Some (email (customer args))
    /\ email (customer args) = payer_email args
    /\ customer_mobile_no env !! so_customer so = Some (mobile_number (customer args)).
Proof.
  intros Hcalls. destruct (execute_call_details env kwargs w args Hcalls) as [pr [so Hdet]].
  destruct Hdet as [Hpr Hso _ _ _ _ _ Hpe Hgn Hem Hmob _ _].
  exists pr, so. rewrite Hem. auto 10.
Qed.

Lemma invoice_customer_block_witness :
  exists pr so,
    payment_requests (Shop.env_with true Shop.pending_invoice) !! "PR-1" = Some pr
    /\ sales_orders (Shop.env_with true Shop.pending_invoice) !! reference_name pr = Some so
    /\ Shop.decoded !! "payer_name" = Some (given_names (customer Shop.invoice_args))
    /\ Shop.decoded !! "payer_email" = Some (email (customer Shop.invoice_args))
    /\ email (customer Shop.invoice_args) = payer_email Shop.invoice_args
    /\ customer_mobile_no (Shop.env_with true Shop.pending_invoice) !! so_customer so
       = Some (mobile_number (customer Shop.invoice_args)).
Proof.
  apply (invoice_customer_block (Shop.env_with true Shop.pending_invoice)
           Shop.decoded Shop.empty_world Shop.invoice_args).
  vm_compute. reflexivity.
Defined.

(** X14: the error that blames the provider does not mean the provider was
    called.  When [execute_set_express_checkout] raises "Failed to create
    Xendit Invoice", either the call was made and the provider failed, or
    no call was made and the description or the amount is missing from the
    keyword arguments. *)
Theorem create_failed_without_call (env : Env) (kwargs : gmap string pyval) (w : World) :
  fst (XenditSettings.execute_set_express_checkout env kwargs w)
    = Raise (ValidationError create_failed) ->
  let w' := snd (XenditSettings.execute_set_express_checkout env kwargs w) in
  (exists args,
     w' = add_provider_call (CreateInvoice args) w /\ Invoice_create env args = None)
  \/ (w' = w /\ (kwargs !! "description" = None \/ kwargs !! "amount" = None)).
Proof.
  intros Hfail. cbv zeta.
  destruct (execute_set_express_checkout_walk env kwargs w)
    as [[e [Hrun Hwhy]]|[args [pr [so [_ Hrun]]]]]; rewrite Hrun in *; simpl in *.
  - right. split; [reflexivity|]. apply Hwhy. now injection Hfail.
  - left. exists args. split; [reflexivity|].
    destruct (Invoice_create env args); [discriminate|reflexivity].
Qed.

Lemma create_failed_without_call_witness :
  let run := XenditSettings.execute_set_express_checkout
               (Shop.env_with true Shop.pending_invoice)
               (delete "amount" Shop.decoded) Shop.empty_world in
  (exists args,
     snd run = add_provider_call (CreateInvoice args) Shop.empty_world
     /\ Invoice_create (Shop.env_with true Shop.pending_invoice) args = None)
  \/ (snd run = Shop.empty_world
      /\ (delete "amount" Shop.decoded !! "description" = None
          \/ delete "amount" Shop.decoded !! "amount" = None)).
Proof.
  apply (create_failed_without_call (Shop.env_with true Shop.pending_invoice)
           (delete "amount" Shop.decoded) Shop.empty_world).
  vm_compute. reflexivity.
Defined.

(** X15: a reference that does not resolve stops the checkout before
    anything is done.  Without a payment request of the given name the
    first validation error is raised, with a payment request whose sales
    order is missing the second; the world is unchanged in both cases. *)
Theorem checkout_needs_reference_chain (env : Env) (kwargs : gmap string pyval) (w : World) :
  ((forall n, kwargs !! "reference_docname" = Some (PyStr n) ->
              payment_requests env !! n = None) ->
   XenditSettings.execute_set_express_checkout env kwargs w
   = (Raise (ValidationError "Referenced doctype for checkout is not a Payment Request"), w))
  /\ (forall n pr,
        kwargs !! "reference_docname" = Some (PyStr n) ->
        payment_requests env !! n = Some pr ->
        sales_orders env !! reference_name pr = None ->
        XenditSettings.execute_set_express_checkout env kwargs w
        = (Raise (ValidationError "Doctype referenced by Payment Request is not a Sales Order"), w)).
Proof.
  unfold XenditSettings.execute_set_express_checkout. split.
  - intros Hnone. run. unfold getitem.
    destruct (kwargs !! "reference_docname") as [[|n| | |]|] eqn:Hname; try reflexivity.
    simpl. now rewrite (Hnone n eq_refl).
  - intros n pr Hname Hpr Hso. run. unfold getitem. rewrite Hname. simpl.
    now rewrite Hpr, Hso.
Qed.

Lemma checkout_needs_reference_chain_witness :
  XenditSettings.execute_set_express_checkout (Shop.env_with true Shop.pending_invoice)
    (<["reference_docname" := PyStr "PR-2"]> Shop.decoded) Shop.empty_world
  = (Raise (ValidationError "Referenced doctype for checkout is not a Payment Request"),
     Shop.empty_world).
Proof.
  apply (checkout_needs_reference_chain (Shop.env_with true Shop.pending_invoice)
           (<["reference_docname" := PyStr "PR-2"]> Shop.decoded) Shop.empty_world).
  intros n Hn. rewrite lookup_insert_eq in Hn. injection Hn as <-.
  vm_compute. reflexivity.
Defined.

(** X16: the confirmation URL that [get_redirect_uri] builds for a token is
    the URL the provider is given, for success and for failure alike, when
    an invoice is created for the payment request of that name. *)
Theorem get_redirect_uri_is_the_provider_redirect (env : Env) (kwargs : gmap string pyval)
    (w : World) (args : InvoiceArgs) :
  provider_calls (snd (XenditSettings.execute_set_express_checkout env kwargs w))
    = (provider_calls w ++ [CreateInvoice args])%list ->
  success_redirect_url args = XenditSettings.get_redirect_uri env (external_id args)
  /\ failure_redirect_url args = XenditSettings.get_redirect_uri env (external_id args).
Proof.
  intros Hcalls.
  destruct (execute_set_express_checkout_outcome env kwargs w)
    as [e|args' [_ _ Hs Hf _] _|args' inv [_ _ Hs Hf _] _]; simpl in Hcalls.
  - now apply app_singleton_neq in Hcalls.
  - apply app_inv_head in Hcalls. injection Hcalls as ->.
    rewrite Hf, Hs. split; reflexivity.
  - apply app_inv_head in Hcalls. injection Hcalls as ->.
    rewrite Hf, Hs. split; reflexivity.
Qed.

Lemma get_redirect_uri_is_the_provider_redirect_witness :
  success_redirect_url Shop.invoice_args
    = XenditSettings.get_redirect_uri (Shop.env_with true Shop.pending_invoice) "PR-1"
  /\ failure_redirect_url Shop.invoice_args
     = XenditSettings.get_redirect_uri (Shop.env_with true Shop.pending_invoice) "PR-1".
Proof.
  apply (get_redirect_uri_is_the_provider_redirect (Shop.env_with true Shop.pending_invoice)
           Shop.decoded Shop.empty_world Shop.invoice_args).
  vm_compute. reflexivity.
Defined.

(** ** From checkout to confirmation *)

Lemma decode_ascii_ok (v : pyval) (s : string) :
  decode_ascii v = Ok s ->
  exists b, v = PyBytes b /\ forallb is_ascii_byte b = true /\ s = string_of_list_byte b.
Proof.
  destruct v as [| |b| |]; simpl; try discriminate.
  destruct (forallb is_ascii_byte b) eqn:Hb; [|discriminate].
  intros [= <-]. eauto.
Qed.

(** Every run of [get_payment_url] either stops without a provider call or
    decodes its three byte strings and makes the one call, logging the
    request when the provider answers. *)
Lemma get_payment_url_walk (env : Env) (kwargs : gmap string pyval) (w : World) :
  (exists e, XenditSettings.get_payment_url env kwargs w = (Raise e, w))
  \/ exists bt bd bp args pr so,
       kwargs !! "title" = Some (PyBytes bt)
       /\ kwargs !! "description" = Some (PyBytes bd)
       /\ kwargs !! "payer_name" = Some (PyBytes bp)
       /\ checkout_details env
            (decoded_kwargs kwargs (string_of_list_byte bt) (string_of_list_byte bd)
               (string_of_list_byte bp))
            args pr so
       /\ XenditSettings.get_payment_url env kwargs w
          = match Invoice_create env args with
            | Some inv =>
                (Ok (inv_invoice_url inv),
                 set_integration_requests
                   (<[inv_external_id inv :=
                        new_request
                          (<["is_remote_request" := PyInt 1]>
                             (decoded_kwargs kwargs (string_of_list_byte bt)
                                (string_of_list_byte bd) (string_of_list_byte bp)))
                          inv]> (integration_requests w))
                   (add_provider_call (CreateInvoice args) w))
            | None =>
                (Raise (ValidationError create_failed),
                 add_provider_call (CreateInvoice args) w)
            end.
Proof.
  unfold XenditSettings.get_payment_url. run. unfold getitem.
  destruct (kwargs !! "title") as [v1|] eqn:H1; [|eauto]. simpl.
  destruct (decode_ascii v1) as [t|e] eqn:D1; [|eauto].
  rewrite lookup_insert_ne by discriminate.
  destruct (kwargs !! "description") as [v2|] eqn:H2; [|eauto]. simpl.
  destruct (decode_ascii v2) as [d|e] eqn:D2; [|eauto].
  rewrite !lookup_insert_ne by discriminate.
  destruct (kwargs !! "payer_name") as [v3|] eqn:H3; [|eauto]. simpl.
  destruct (decode_ascii v3) as [p|e] eqn:D3; [|eauto].
  apply decode_ascii_ok in D1 as [bt [-> [_ ->]]].
  apply decode_ascii_ok in D2 as [bd [-> [_ ->]]].
  apply decode_ascii_ok in D3 as [bp [-> [_ ->]]].
  fold (decoded_kwargs kwargs (string_of_list_byte bt) (string_of_list_byte bd)
          (string_of_list_byte bp)).
  set (kw := decoded_kwargs kwargs _ _ _).
  destruct (execute_set_express_checkout_walk env kw w)
    as [[e [Hrun _]]|[args [pr [so [Hdet Hrun]]]]]; rewrite Hrun.
  - eauto.
  - right. exists bt, bd, bp, args, pr, so.
    do 3 (split; [reflexivity|]). split; [exact Hdet|].
    destruct (Invoice_create env args) as [inv|]; reflexivity.
Qed.

(** X17: what reaches the provider is the decoded text.  In every invoice
    [get_payment_url] asks for, the description and the payer name are the
    strings of the ASCII bytes the caller passed, while the amount, the
    e-mail and the reference name are the caller's own values. *)
Theorem provider_gets_decoded_text (env : Env) (kwargs : gmap string pyval) (w : World)
    (args : InvoiceArgs) :
  provider_calls (snd (XenditSettings.get_payment_url env kwargs w))
    = (provider_calls w ++ [CreateInvoice args])%list ->
  exists bd bp,
    kwargs !! "description" = Some (PyBytes bd)
    /\ kwargs !! "payer_name" = Some (PyBytes bp)
    /\ description args = PyStr (string_of_list_byte bd)
    /\ given_names (customer args) = PyStr (string_of_list_byte bp)
    /\ kwargs !! "amount" = Some (amount args)
    /\ kwargs !! "payer_email" = Some (payer_email args)
    /\ kwargs !! "reference_docname" = Some (PyStr (external_id args)).
Proof.
  intros Hcalls.
  destruct (get_payment_url_walk env kwargs w)
    as [[e Hrun]|[bt [bd [bp [args' [pr [so [Ht [Hd [Hp [Hdet Hrun]]]]]]]]]]];
    rewrite Hrun in Hcalls.
  - now apply app_singleton_neq in Hcalls.
  - assert (args' = args) as ->.
    { destruct (Invoice_create env args'); simpl in Hcalls;
        apply app_inv_head in Hcalls; now injection Hcalls. }
    exists bd, bp. split; [exact Hd|]. split; [exact Hp|].
    destruct Hdet as [_ _ _ _ _ Hamt Hdesc Hpe Hgn _ _ _ Htok].
    unfold decoded_kwargs in *.
    rewrite lookup_insert_ne, lookup_insert_eq in Hdesc by discriminate.
    rewrite lookup_insert_eq in Hgn.
    rewrite !lookup_insert_ne in Hamt, Hpe, Htok by discriminate.
    injection Hdesc as <-. injection Hgn as <-. auto.
Qed.

Lemma provider_gets_decoded_text_witness :
  exists bd bp,
    Shop.kwargs !! "description" = Some (PyBytes bd)
    /\ Shop.kwargs !! "payer_name" = Some (PyBytes bp)
    /\ description Shop.invoice_args = PyStr (string_of_list_byte bd)
    /\ given_names (customer Shop.invoice_args) = PyStr (string_of_list_byte bp)
    /\ Shop.kwargs !! "amount" = Some (amount Shop.invoice_args)
    /\ Shop.kwargs !! "payer_email" = Some (payer_email Shop.invoice_args)
    /\ Shop.kwargs !! "reference_docname" = Some (PyStr (external_id Shop.invoice_args)).
Proof.
  apply (provider_gets_decoded_text (Shop.env_with true Shop.pending_invoice)
           Shop.kwargs Shop.empty_world Shop.invoice_args).
  vm_compute. reflexivity.
Defined.

(** X18: what a successful checkout leaves in the table.  The request
    stored for the created invoice is a Pending Xendit request whose output
    is the provider's response and whose data are exactly the caller's
    keyword arguments with the title, the description and the payer name
    replaced by their decoded strings and [is_remote_request] set to 1,
    every other argument being kept; its reference name is the caller's
    [reference_docname], its reference doctype the caller's, and it carries
    no redirect hint. *)
Theorem checkout_logs_the_request (env : Env) (kwargs : gmap string pyval) (w : World)
    (url : string) (w' : World) :
  XenditSettings.get_payment_url env kwargs w = (Ok url, w') ->
  exists args inv doc bt bd bp,
    Invoice_create env args = Some inv
    /\ integration_requests w' !! inv_external_id inv = Some doc
    /\ ir_status doc = Pending
    /\ ir_service doc = "Xendit"
    /\ ir_output doc = Some (invoice_json inv)
    /\ kwargs !! "title" = Some (PyBytes bt)
    /\ kwargs !! "description" = Some (PyBytes bd)
    /\ kwargs !! "payer_name" = Some (PyBytes bp)
    /\ ir_data doc
       = <["is_remote_request" := PyInt 1]>
           (<["payer_name" := PyStr (string_of_list_byte bp)]>
              (<["description" := PyStr (string_of_list_byte bd)]>
                 (<["title" := PyStr (string_of_list_byte bt)]> kwargs)))
    /\ ir_data doc !! "title" = Some (PyStr (string_of_list_byte bt))
    /\ ir_data doc !! "description" = Some (PyStr (string_of_list_byte bd))
    /\ ir_data doc !! "payer_name" = Some (PyStr (string_of_list_byte bp))
    /\ ir_data doc !! "is_remote_request" = Some (PyInt 1)
    /\ (forall k, k <> "title" -> k <> "description" -> k <> "payer_name" ->
                  k <> "is_remote_request" -> ir_data doc !! k = kwargs !! k)
    /\ kwargs !! "reference_docname" = Some (PyStr (external_id args))
    /\ reference_docname doc = Some (external_id args)
    /\ reference_doctype doc = pystr_opt (kwargs !! "reference_doctype")
    /\ redirect_to doc = None
    /\ redirect_message doc = None.
Proof.
  intros Hrun.
  destruct (get_payment_url_walk env kwargs w)
    as [[e Hstop]|[bt [bd [bp [args [pr [so [Ht [Hd [Hp [Hdet Hwalk]]]]]]]]]]];
    rewrite Hrun in *; [discriminate|].
  destruct (Invoice_create env args) as [inv|] eqn:Hcreate; [|discriminate].
  injection Hwalk as -> ->.
  destruct Hdet as [_ _ _ _ _ _ _ _ _ _ _ _ Htok].
  unfold decoded_kwargs in Htok. rewrite !lookup_insert_ne in Htok by discriminate.
  eexists args, inv, _, bt, bd, bp. split; [exact Hcreate|].
  split; [apply lookup_insert_eq|]. simpl. unfold decoded_kwargs.
  do 3 (split; [reflexivity|]).
  split; [exact Ht|]. split; [exact Hd|]. split; [exact Hp|].
  split; [reflexivity|].
  split; [now rewrite !lookup_insert_ne, lookup_insert_eq by discriminate|].
  split; [now rewrite !lookup_insert_ne, lookup_insert_eq by discriminate|].
  split; [now rewrite !lookup_insert_ne, lookup_insert_eq by discriminate|].
  split; [apply lookup_insert_eq|].
  split; [intros k H1 H2 H3 H4; now rewrite !lookup_insert_ne by congruence|].
  split; [exact Htok|].
  rewrite !lookup_insert_ne by discriminate.
  rewrite Htok. auto.
Qed.

Lemma checkout_logs_the_request_witness :
  exists args inv doc bt bd bp,
    Invoice_create (Shop.env_with true Shop.pending_invoice) args = Some inv
    /\ integration_requests
         (snd (XenditSettings.get_payment_url (Shop.env_with true Shop.pending_invoice)
                 Shop.kwargs Shop.empty_world)) !! inv_external_id inv = Some doc
    /\ ir_status doc = Pending
    /\ ir_service doc = "Xendit"
    /\ ir_output doc = Some (invoice_json inv)
    /\ Shop.kwargs !! "title" = Some (PyBytes bt)
    /\ Shop.kwargs !! "description" = Some (PyBytes bd)
    /\ Shop.kwargs !! "payer_name" = Some (PyBytes bp)
    /\ ir_data doc
       = <["is_remote_request" := PyInt 1]>
           (<["payer_name" := PyStr (string_of_list_byte bp)]>
              (<["description" := PyStr (string_of_list_byte bd)]>
                 (<["title" := PyStr (string_of_list_byte bt)]> Shop.kwargs)))
    /\ ir_data doc !! "title" = Some (PyStr (string_of_list_byte bt))
    /\ ir_data doc !! "description" = Some (PyStr (string_of_list_byte bd))
    /\ ir_data doc !! "payer_name" = Some (PyStr (string_of_list_byte bp))
    /\ ir_data doc !! "is_remote_request" = Some (PyInt 1)
    /\ (forall k, k <> "title" -> k <> "description" -> k <> "payer_name" ->
                  k <> "is_remote_request" -> ir_data doc !! k = Shop.kwargs !! k)
    /\ Shop.kwargs !! "reference_docname" = Some (PyStr (external_id args))
    /\ reference_docname doc = Some (external_id args)
    /\ reference_doctype doc = pystr_opt (Shop.kwargs !! "reference_doctype")
    /\ redirect_to doc = None
    /\ redirect_message doc = None.
Proof.
  apply (checkout_logs_the_request (Shop.env_with true Shop.pending_invoice)
           Shop.kwargs Shop.empty_world "https://checkout.example/inv-1").
  vm_compute. reflexivity.
Defined.

(** X19: the token a checkout stores is the token a confirmation finds.
    After a successful [get_payment_url], a confirmation for the external
    id of the created invoice asks the provider, whatever it then is, for
    exactly the invoice id it returned at creation; the confirmation
    raises only if that call fails; and when the answer is PAID and the
    hook returns, the hook has been run on the document the caller named:
    the doctype is the caller's [reference_doctype] argument, whatever it
    is, and the name is the caller's [reference_docname], the name of the
    payment request. *)
Theorem checkout_then_confirm (env : Env) (kwargs : gmap string pyval) (w : World)
    (url : string) (w1 : World) :
  XenditSettings.get_payment_url env kwargs w = (Ok url, w1) ->
  exists args inv,
    Invoice_create env args = Some inv
    /\ url = inv_invoice_url inv
    /\ kwargs !! "reference_docname" = Some (PyStr (external_id args))
    /\ forall env',
         let run := confirm_payment env' (inv_external_id inv) w1 in
         provider_calls (snd run) = (provider_calls w1 ++ [GetInvoice (JStr (inv_id inv))])%list
         /\ (fst run = Ok tt <-> is_Some (Invoice_get env' (JStr (inv_id inv))))
         /\ (forall answer c,
               Invoice_get env' (JStr (inv_id inv)) = Some answer ->
               inv_status answer = "PAID" ->
               reference_doc_exists env' (pystr_opt (kwargs !! "reference_doctype"))
                 (Some (external_id args)) = true ->
               on_payment_authorized env' (pystr_opt (kwargs !! "reference_doctype"))
                 (Some (external_id args)) = Ok c ->
               notifications (snd run)
               = (notifications w1
                  ++ [(pystr_opt (kwargs !! "reference_doctype"), Some (external_id args),
                       "Completed")])%list).
Proof.
  intros Hrun.
  destruct (get_payment_url_walk env kwargs w)
    as [[e Hstop]|[bt [bd [bp [args' [pr [so [_ [_ [_ [Hdet Hwalk]]]]]]]]]]];
    rewrite Hrun in *; [discriminate|].
  destruct (Invoice_create env args') as [inv'|] eqn:Hcreate'; [|discriminate].
  injection Hwalk as -> ->.
  assert (Htoken : kwargs !! "reference_docname" = Some (PyStr (external_id args'))).
  { destruct Hdet as [_ _ _ _ _ _ _ _ _ _ _ _ Htok].
    unfold decoded_kwargs in Htok. now rewrite !lookup_insert_ne in Htok by discriminate. }
  exists args', inv'. split; [exact Hcreate'|]. split; [reflexivity|].
  split; [exact Htoken|].
  intros env'. cbv zeta.
  match goal with
  | |- context [confirm_payment env' _ ?w1] => set (world := w1) in *
  end.
  match goal with
  | world := set_integration_requests (<[_ := ?d]> _) _ |- _ => set (doc := d) in *
  end.
  assert (Hlook : integration_requests world !! inv_external_id inv' = Some doc)
    by apply lookup_insert_eq.
  assert (Hsid : stored_invoice_id doc = Ok (JStr (inv_id inv'))) by reflexivity.
  destruct Hdet as [_ _ _ _ _ _ _ _ _ _ _ _ Htok].
  unfold decoded_kwargs in Htok. rewrite !lookup_insert_ne in Htok by discriminate.
  assert (Hrn : reference_docname doc = Some (external_id args')).
  { subst doc. simpl. unfold decoded_kwargs.
    rewrite !lookup_insert_ne by discriminate. now rewrite Htok. }
  assert (Htype : reference_doctype doc = pystr_opt (kwargs !! "reference_doctype")).
  { subst doc. simpl. unfold decoded_kwargs.
    now rewrite !lookup_insert_ne by discriminate. }
  destruct (Invoice_get env' (JStr (inv_id inv'))) as [answer|] eqn:Hget.
  - assert (Hok : fst (confirm_payment env' (inv_external_id inv') world) = Ok tt
                  /\ provider_calls (snd (confirm_payment env' (inv_external_id inv') world))
                     = (provider_calls world ++ [GetInvoice (JStr (inv_id inv'))])%list).
    { destruct (string_dec (inv_status answer) "PAID") as [Hpaid|Hnot].
      - destruct (reference_doc_exists env' (reference_doctype doc) (reference_docname doc))
          eqn:Hex.
        + destruct (on_payment_authorized env' (reference_doctype doc) (reference_docname doc))
            as [c|e] eqn:Hhook.
          * rewrite (confirm_payment_paid env' _ world doc Hlook _ Hsid answer Hget Hpaid
                       Hex c Hhook), setup_redirect_location. split; reflexivity.
          * rewrite (confirm_payment_hook_raises env' _ world doc Hlook _ Hsid answer Hget
                       Hpaid Hex e Hhook). split; reflexivity.
        + rewrite (confirm_payment_reference_missing env' _ world doc Hlook _ Hsid answer
                     Hget Hpaid Hex). split; reflexivity.
      - rewrite (confirm_payment_not_paid env' _ world doc Hlook _ Hsid answer Hget Hnot).
        split; reflexivity. }
    destruct Hok as [Hok Hcalls]. split; [exact Hcalls|].
    split; [split; [eauto|intros _; exact Hok]|].
    intros answer' c [= <-] Hpaid Hex Hhook.
    rewrite <- Htype, <- Hrn in Hex, Hhook.
    rewrite (confirm_payment_paid env' _ world doc Hlook _ Hsid answer Hget Hpaid
               Hex c Hhook), setup_redirect_location.
    rewrite <- Htype, <- Hrn. reflexivity.
  - rewrite (confirm_payment_provider_down env' _ world doc Hlook _ Hsid Hget).
    simpl. split; [reflexivity|].
    split; [split; [discriminate|intros [x Hx]; discriminate]|].
    intros answer c Habs. discriminate.
Qed.

Lemma checkout_then_confirm_witness :
  exists args inv,
    Invoice_create (Shop.env_with true Shop.pending_invoice) args = Some inv
    /\ "https://checkout.example/inv-1" = inv_invoice_url inv
    /\ Shop.kwargs !! "reference_docname" = Some (PyStr (external_id args))
    /\ forall env',
         let run :=
           confirm_payment env' (inv_external_id inv)
             (snd (XenditSettings.get_payment_url (Shop.env_with true Shop.pending_invoice)
                     Shop.kwargs Shop.empty_world)) in
         provider_calls (snd run)
         = (provider_calls
              (snd (XenditSettings.get_payment_url (Shop.env_with true Shop.pending_invoice)
                      Shop.kwargs Shop.empty_world))
            ++ [GetInvoice (JStr (inv_id inv))])%list
         /\ (fst run = Ok tt <-> is_Some (Invoice_get env' (JStr (inv_id inv))))
         /\ (forall answer c,
               Invoice_get env' (JStr (inv_id inv)) = Some answer ->
               inv_status answer = "PAID" ->
               reference_doc_exists env' (pystr_opt (Shop.kwargs !! "reference_doctype"))
                 (Some (external_id args)) = true ->
               on_payment_authorized env' (pystr_opt (Shop.kwargs !! "reference_doctype"))
                 (Some (external_id args)) = Ok c ->
               notifications (snd run)
               = (notifications
                    (snd (XenditSettings.get_payment_url
                            (Shop.env_with true Shop.pending_invoice)
                            Shop.kwargs Shop.empty_world))
                  ++ [(pystr_opt (Shop.kwargs !! "reference_doctype"),
                       Some (external_id args), "Completed")])%list).
Proof.
  apply (checkout_then_confirm (Shop.env_with true Shop.pending_invoice)
           Shop.kwargs Shop.empty_world "https://checkout.example/inv-1").
  vm_compute. reflexivity.
Defined.

(** ** The fee on whole amounts *)

Lemma agree_at_sound (a : Z) :
  Fee.agree_at a = true ->
  Fee.gateway_fee (Fee.float_of_Z a) = Ok (Fee.ComputeFee_exact a).
Proof.
  unfold Fee.agree_at.
  destruct (Fee.gateway_fee (Fee.float_of_Z a)) as [v|e]; [|discriminate].
  intros Hv. apply Z.eqb_eq in Hv. now rewrite Hv.
Qed.

Lemma agree_from_sound (p : positive) : forall (lo a : Z),
  Fee.agree_from lo p = true -> lo <= a < lo + Z.pos p ->
  Fee.gateway_fee (Fee.float_of_Z a) = Ok (Fee.ComputeFee_exact a).
Proof.
  induction p as [q IH|q IH|]; intros lo a Hagree Hrange; simpl in Hagree.
  - apply andb_prop in Hagree as [Hagree Hhigh].
    apply andb_prop in Hagree as [Hlo Hlow].
    destruct (Z.eq_dec a lo) as [->|Hne]; [now apply agree_at_sound|].
    destruct (Z_lt_le_dec a (lo + 1 + Z.pos q)).
    + apply (IH (lo + 1)); [exact Hlow|lia].
    + apply (IH (lo + 1 + Z.pos q)); [exact Hhigh|lia].
  - apply andb_prop in Hagree as [Hlow Hhigh].
    destruct (Z_lt_le_dec a (lo + Z.pos q)).
    + apply (IH lo); [exact Hlow|lia].
    + apply (IH (lo + Z.pos q)); [exact Hhigh|lia].
  - replace a with lo by lia. now apply agree_at_sound.
Qed.

(** X20: for every whole grand total from 0 to 100000 the binary64
    computation of the code gives exactly 2000 plus 2.9% of the total
    truncated down to a multiple of 1000; in particular the fee is the flat
    2000 up to 34482 and never above 4000 in this range. *)
Theorem gateway_fee_exact_up_to_100000 (a : Z) :
  0 <= a <= 100000 ->
  Fee.gateway_fee (Fee.float_of_Z a) = Ok (Fee.ComputeFee_exact a)
  /\ (a <= 34482 -> Fee.gateway_fee (Fee.float_of_Z a) = Ok 2000)
  /\ 2000 <= Fee.ComputeFee_exact a <= 4000.
Proof.
  intros Ha.
  assert (Hfee : Fee.gateway_fee (Fee.float_of_Z a) = Ok (Fee.ComputeFee_exact a)).
  { apply (agree_from_sound 100001 0 a); [|lia]. vm_compute. reflexivity. }
  split; [exact Hfee|]. unfold Fee.ComputeFee_exact in *. split.
  - intros Hsmall. rewrite Hfee. f_equal.
    rewrite Z.div_small by lia. reflexivity.
  - assert (0 <= 29 * a / 1000000 <= 2).
    { split; [apply Z.div_pos; lia|].
      apply Z.lt_succ_r. apply Z.div_lt_upper_bound; lia. }
    lia.
Qed.

Lemma gateway_fee_exact_up_to_100000_witness :
  Fee.gateway_fee (Fee.float_of_Z 34483) = Ok (Fee.ComputeFee_exact 34483)
  /\ (34483 <= 34482 -> Fee.gateway_fee (Fee.float_of_Z 34483) = Ok 2000)
  /\ 2000 <= Fee.ComputeFee_exact 34483 <= 4000.
Proof. apply (gateway_fee_exact_up_to_100000 34483). lia. Defined.

(** ** The encoder loses nothing *)



Lemma space_is_quoted : Urllib.always_safe " " = false.
Proof. reflexivity. Qed.








(** ** Where a paid confirmation sends the browser *)

(** X22: when the provider says PAID and the hook returns, the browser is
    sent to the success page of the reference document; a target returned
    by the hook does not replace that page but travels as its
    [redirect_to] parameter, encoded, followed by the document's message
    if it has one. *)
Theorem confirm_payment_success_location (env : Env) (token : string) (w : World)
    (d : IntegrationRequest) (invoice : Invoice) (c : option string) :
  integration_requests w !! token = Some d ->
  fetched_invoice env d = Some invoice ->
  inv_status invoice = "PAID" ->
  reference_doc_exists env (reference_doctype d) (reference_docname d) = true ->
  on_payment_authorized env (reference_doctype d) (reference_docname d) = Ok c ->
  let w' := snd (confirm_payment env token w) in
  response w' !! "type" = Some "redirect"
  /\ response w' !! "location"
     = Some (get_url env
               ("payment-success?doctype=" +:+ format_opt (reference_doctype d)
                +:+ "&docname=" +:+ format_opt (reference_docname d)
                +:+ query_param "redirect_to" (effective_redirect_to d c)
                +:+ query_param "redirect_message" (or_None (redirect_message d))))
  /\ (forall t, c = Some t -> t <> "" ->
       query_param "redirect_to" (effective_redirect_to d c)
       = "&redirect_to=" +:+ Urllib.quote_plus t).
Proof.
  intros Hdoc Hfetch Hpaid Hex Hhook.
  destruct (fetched_invoice_inv env d invoice Hfetch) as [invoice_id [Hid Hget]].
  cbv zeta.
  rewrite (confirm_payment_paid env token w d Hdoc invoice_id Hid invoice Hget Hpaid
             Hex c Hhook), setup_redirect_location.
  simpl. split; [now rewrite lookup_insert_ne, lookup_insert_eq by discriminate|].
  split.
  - rewrite lookup_insert_eq. unfold success_url.
    now rewrite !string_append_assoc.
  - intros t -> Ht. unfold effective_redirect_to.
    destruct t as [|x t]; [now elim Ht|reflexivity].
Qed.

Lemma confirm_payment_success_location_witness :
  let env := Shop.env_hook true (Ok (Some "thanks?id=7")) in
  let w' := snd (confirm_payment env "PR-1" (Shop.world_with Pending)) in
  response w' !! "type" = Some "redirect"
  /\ response w' !! "location"
     = Some (Shop.site_url
               ("payment-success?doctype=" +:+ "Payment Request"
                +:+ "&docname=" +:+ "PR-1"
                +:+ query_param "redirect_to"
                      (effective_redirect_to (Shop.request Pending) (Some "thanks?id=7"))
                +:+ query_param "redirect_message"
                      (or_None (redirect_message (Shop.request Pending)))))
  /\ (forall t, Some "thanks?id=7" = Some t -> t <> "" ->
       query_param "redirect_to"
         (effective_redirect_to (Shop.request Pending) (Some "thanks?id=7"))
       = "&redirect_to=" +:+ Urllib.quote_plus t).
Proof.
  apply (confirm_payment_success_location (Shop.env_hook true (Ok (Some "thanks?id=7")))
           "PR-1" (Shop.world_with Pending) (Shop.request Pending) Shop.paid_invoice
           (Some "thanks?id=7")); vm_compute; reflexivity.
Defined.

(** ** The redirect URLs of a checkout *)

(** A checkout whose references resolve and whose arguments are there
    makes the one call to the provider, and these are its arguments. *)
Lemma execute_set_express_checkout_calls (env : Env) (kwargs : gmap string pyval)
    (w : World) (n : string) (pr : PaymentRequest) (so : SalesOrder)
    (payer_name payer_email description amount : pyval) (mobile : option string)
    (value : Z) :
  kwargs !! "reference_docname" = Some (PyStr n) ->
  payment_requests env !! n = Some pr ->
  sales_orders env !! reference_name pr = Some so ->
  forallb (item_exists env) (so_items so) = true ->
  kwargs !! "payer_name" = Some payer_name ->
  kwargs !! "payer_email" = Some payer_email ->
  customer_mobile_no env !! so_customer so = Some mobile ->
  Fee.gateway_fee (grand_total pr) = Ok value ->
  kwargs !! "description" = Some description ->
  kwargs !! "amount" = Some amount ->
  let args :=
    {| external_id := n;
       payer_email := payer_email;
       description := description;
       amount := amount;
       customer := {| given_names := payer_name;
                      email := payer_email;
                      mobile_number := mobile |};
       should_send_email := true;
       invoice_duration := 600;
       success_redirect_url := get_url env (api_path +:+ ".confirm_payment?token=" +:+ n);
       failure_redirect_url := get_url env (api_path +:+ ".confirm_payment?token=" +:+ n);
       currency := "IDR";
       fees := [{| fee_type := "GATEWAY"; fee_value := value |}];
       items := map item_line (so_items so) |} in
  XenditSettings.execute_set_express_checkout env kwargs w
  = (match Invoice_create env args with
     | Some inv => Ok inv
     | None => Raise (ValidationError create_failed)
     end,
     add_provider_call (CreateInvoice args) w).
Proof.
  intros Hname Hpr Hso Hitems Hpn Hpe Hmob Hfee Hdesc Hamt args.
  unfold XenditSettings.execute_set_express_checkout. run. unfold getitem.
  rewrite Hname. simpl. rewrite Hpr, Hso, build_items_eq, Hitems, Hpn, Hpe, Hmob, Hfee.
  simpl. rewrite Hdesc, Hamt. unfold provider_create. fold args.
  destruct (Invoice_create env args); reflexivity.
Qed.

(** C8: a checkout whose payment request, sales order, items and customer
    resolve and whose arguments are there does ask the provider for an
    invoice, and the invoice it asks for has one and the same URL for
    success and for failure: the confirmation endpoint with the name of the
    payment request as its token.  No call the checkout ever makes has any
    other redirect URLs.  The URL carries no outcome: a confirmation for a
    token whose invoice id is stored always asks the provider for that
    invoice, a confirmation that returns has asked it, and it writes to the
    table or calls the hook only on the answer PAID. *)
Theorem C8_redirects_carry_no_outcome (env : Env) :
  (forall kwargs w n pr so payer_name payer_email description amount mobile value,
     kwargs !! "reference_docname" = Some (PyStr n) ->
     payment_requests env !! n = Some pr ->
     sales_orders env !! reference_name pr = Some so ->
     forallb (item_exists env) (so_items so) = true ->
     kwargs !! "payer_name" = Some payer_name ->
     kwargs !! "payer_email" = Some payer_email ->
     customer_mobile_no env !! so_customer so = Some mobile ->
     Fee.gateway_fee (grand_total pr) = Ok value ->
     kwargs !! "description" = Some description ->
     kwargs !! "amount" = Some amount ->
     exists args,
       provider_calls (snd (XenditSettings.execute_set_express_checkout env kwargs w))
         = (provider_calls w ++ [CreateInvoice args])%list
       /\ external_id args = n
       /\ success_redirect_url args = failure_redirect_url args
       /\ success_redirect_url args
          = get_url env (api_path +:+ ".confirm_payment?token=" +:+ n))
  /\ (forall kwargs w args,
        provider_calls (snd (XenditSettings.execute_set_express_checkout env kwargs w))
          = (provider_calls w ++ [CreateInvoice args])%list ->
        success_redirect_url args = failure_redirect_url args
        /\ success_redirect_url args
           = get_url env (api_path +:+ ".confirm_payment?token=" +:+ external_id args)
        /\ kwargs !! "reference_docname" = Some (PyStr (external_id args)))
  /\ (forall token w d invoice_id,
        integration_requests w !! token = Some d ->
        stored_invoice_id d = Ok invoice_id ->
        provider_calls (snd (confirm_payment env token w))
          = (provider_calls w ++ [GetInvoice invoice_id])%list
        /\ (fst (confirm_payment env token w) = Ok tt
            <-> is_Some (Invoice_get env invoice_id)))
  /\ (forall token w,
        fst (confirm_payment env token w) = Ok tt ->
        exists d invoice_id invoice,
          integration_requests w !! token = Some d
          /\ stored_invoice_id d = Ok invoice_id
          /\ Invoice_get env invoice_id = Some invoice
          /\ provider_calls (snd (confirm_payment env token w))
             = (provider_calls w ++ [GetInvoice invoice_id])%list
          /\ (inv_status invoice <> "PAID" ->
                integration_requests (snd (confirm_payment env token w))
                  = integration_requests w
                /\ notifications (snd (confirm_payment env token w)) = notifications w)).
Proof.
  assert (Hasked : forall token w d invoice_id invoice,
             integration_requests w !! token = Some d ->
             stored_invoice_id d = Ok invoice_id ->
             Invoice_get env invoice_id = Some invoice ->
             fst (confirm_payment env token w) = Ok tt
             /\ provider_calls (snd (confirm_payment env token w))
                = (provider_calls w ++ [GetInvoice invoice_id])%list).
  { intros token w d invoice_id invoice Hdoc Hid Hget.
    destruct (string_dec (inv_status invoice) "PAID") as [Hpaid|Hnot].
    - destruct (reference_doc_exists env (reference_doctype d) (reference_docname d)) eqn:Hex.
      + destruct (on_payment_authorized env (reference_doctype d) (reference_docname d))
          as [c|e] eqn:Hhook.
        * rewrite (confirm_payment_paid env token w d Hdoc invoice_id Hid invoice Hget
                     Hpaid Hex c Hhook), setup_redirect_location. split; reflexivity.
        * rewrite (confirm_payment_hook_raises env token w d Hdoc invoice_id Hid invoice
                     Hget Hpaid Hex e Hhook). split; reflexivity.
      + rewrite (confirm_payment_reference_missing env token w d Hdoc invoice_id Hid
                   invoice Hget Hpaid Hex). split; reflexivity.
    - rewrite (confirm_payment_not_paid env token w d Hdoc invoice_id Hid invoice Hget Hnot).
      split; reflexivity. }
  split; [|split; [|split]].
  - intros kwargs w n pr so payer_name payer_email description amount mobile value
      Hname Hpr Hso Hitems Hpn Hpe Hmob Hfee Hdesc Hamt.
    eexists.
    rewrite (execute_set_express_checkout_calls env kwargs w n pr so payer_name payer_email
               description amount mobile value Hname Hpr Hso Hitems Hpn Hpe Hmob Hfee
               Hdesc Hamt).
    simpl. repeat split.
  - intros kwargs w args Hcalls.
    destruct (execute_set_express_checkout_outcome env kwargs w)
      as [e|args' Hargs _|args' inv Hargs _]; simpl in Hcalls.
    + now apply app_singleton_neq in Hcalls.
    + apply app_inv_head in Hcalls. injection Hcalls as ->.
      destruct Hargs as [Ht _ Hs Hf _]. rewrite Hf. auto.
    + apply app_inv_head in Hcalls. injection Hcalls as ->.
      destruct Hargs as [Ht _ Hs Hf _]. rewrite Hf. auto.
  - intros token w d invoice_id Hdoc Hid.
    destruct (Invoice_get env invoice_id) as [invoice|] eqn:Hget.
    + destruct (Hasked token w d invoice_id invoice Hdoc Hid Hget) as [Hok Hcalls].
      split; [exact Hcalls|]. split; [eauto|intros _; exact Hok].
    + rewrite (confirm_payment_provider_down env token w d Hdoc invoice_id Hid Hget).
      simpl. split; [reflexivity|].
      split; [discriminate|intros [x Hx]; discriminate].
  - intros token w Hok.
    destruct (integration_requests w !! token) as [d|] eqn:Hdoc;
      [|now rewrite confirm_payment_unknown in Hok].
    destruct (stored_invoice_id d) as [invoice_id|e] eqn:Hid;
      [|now rewrite (confirm_payment_no_id env token w d Hdoc e Hid) in Hok].
    destruct (Invoice_get env invoice_id) as [invoice|] eqn:Hget;
      [|now rewrite (confirm_payment_provider_down env token w d Hdoc invoice_id Hid Hget) in Hok].
    exists d, invoice_id, invoice.
    split; [reflexivity|]. split; [exact Hid|]. split; [exact Hget|].
    split; [apply (Hasked token w d invoice_id invoice Hdoc Hid Hget)|].
    intros Hnot.
    now rewrite (confirm_payment_not_paid env token w d Hdoc invoice_id Hid invoice Hget Hnot).
Qed.

Lemma C8_witness :
  let env := Shop.env_with true Shop.pending_invoice in
  (exists args,
     provider_calls (snd (XenditSettings.execute_set_express_checkout env Shop.decoded
                            Shop.empty_world))
       = (provider_calls Shop.empty_world ++ [CreateInvoice args])%list
     /\ external_id args = "PR-1"
     /\ success_redirect_url args = failure_redirect_url args
     /\ success_redirect_url args
        = get_url env (api_path +:+ ".confirm_payment?token=" +:+ "PR-1"))
  /\ get_url env (api_path +:+ ".confirm_payment?token=" +:+ "PR-1")
     = "https://shop.example/api/method/payments.payment_gateways.doctype.xendit_settings.xendit_settings.confirm_payment?token=PR-1"
  /\ provider_calls (snd (confirm_payment env "PR-1" (Shop.world_with Pending)))
     = (provider_calls (Shop.world_with Pending) ++ [GetInvoice (JStr "inv-1")])%list
  /\ (fst (confirm_payment env "PR-1" (Shop.world_with Pending)) = Ok tt
      <-> is_Some (Invoice_get env (JStr "inv-1"))).
Proof.
  intros env.
  destruct (C8_redirects_carry_no_outcome env) as [Hcreate [_ [Hconfirm _]]].
  split; [|split].
  - apply (Hcreate Shop.decoded Shop.empty_world "PR-1"
             {| reference_name := "SO-1"; grand_total := 100000%float |}
             {| so_items := [{| item_code := "TEA"; rate := 50000%float; qty := 2%float |}];
                so_customer := "Ann" |}
             (PyStr "Ann") (PyStr "ann@shop.example") (PyStr "Tea")
             (PyFloat 100000%float) None 4000);
      vm_compute; reflexivity.
  - vm_compute. reflexivity.
  - apply (Hconfirm "PR-1" (Shop.world_with Pending) (Shop.request Pending) (JStr "inv-1"));
      vm_compute; reflexivity.
Defined.
